(** * Wavebox browser context menu: the menu template built by
      [ContextMenu.launchMenu]

    Shallow embedding of
    [src/scenes/platform/src/webviewInjection/Browser/ContextMenu.js].

    The JavaScript method pushes plain objects onto [menuTemplate] and hands
    the array to [Menu.buildFromTemplate].  Here the method is a function from
    the receiver ([this]) and the event parameters to the array it has built
    when it reaches [Menu.buildFromTemplate], or to the exception that
    interrupted it.  The arrow functions stored under [click] are
    defunctionalised: one constructor per closure, carrying what the closure
    captures, and [invoke] runs the closure's body. *)

From Stdlib Require Import List NArith ZArith Bool String Ascii Lia.
Import ListNotations.

Set Implicit Arguments.

(** ** JavaScript values used by the menu *)

Module JS.

(** A JavaScript string is a sequence of UTF-16 code units; [length] and
    [substr] count code units. *)
Definition codeunit := N.
Definition jsstring := list codeunit.

(** An ASCII literal of the source. *)
Definition js (s : string) : jsstring :=
  map N_of_ascii (list_ascii_of_string s).

(** The three non-ASCII characters of the source's template literals. *)
Definition ldquo : codeunit := 8220%N.   (* U+201C *)
Definition rdquo : codeunit := 8221%N.   (* U+201D *)
Definition hellip : codeunit := 8230%N.  (* U+2026 *)

Definition length (s : jsstring) : nat := List.length s.

(** [s.substr(start, len)] for non-negative arguments. *)
Definition substr (s : jsstring) (start len : nat) : jsstring :=
  firstn len (skipn start s).

(** ToBoolean on a string: only the empty string is falsy. *)
Definition truthy (s : jsstring) : bool :=
  match s with
  | [] => false
  | _ :: _ => true
  end.

Fixpoint eqb (s t : jsstring) : bool :=
  match s, t with
  | [], [] => true
  | c :: s', d :: t' => N.eqb c d && eqb s' t'
  | _, _ => false
  end.

Inductive Error := TypeError | URIError.

(** The outcome of running a piece of JavaScript: a value, or a thrown
    exception. *)
Inductive completion (A : Type) : Type :=
| Normal (a : A)
| Throw (e : Error).

Arguments Normal {A} a.
Arguments Throw {A} e.

Definition bind {A B} (c : completion A) (k : A -> completion B)
  : completion B :=
  match c with
  | Normal a => k a
  | Throw e => Throw e
  end.

End JS.

Import JS.

Notation "x <- c ;; k" := (JS.bind c (fun x => k))
  (at level 61, c at next level, right associativity).

(** ** Data model *)

(** [params.editFlags] *)
Record EditFlags := {
  canUndo : bool;
  canRedo : bool;
  canCut : bool;
  canCopy : bool;
  canPaste : bool;
  canSelectAll : bool
}.

(** The [params] object of Electron's [context-menu] event, restricted to the
    fields [launchMenu] reads.  [None] is [null]/[undefined]. *)
Record Params := {
  isEditable : bool;
  misspelledWord : option jsstring;
  selectionText : option jsstring;
  linkURL : option jsstring;
  editFlags : EditFlags;
  x : Z;
  y : Z
}.

(** One language's entry of the object returned by
    [spellchecker.suggestions(word)]. *)
Record LanguageSuggestions := {
  language : jsstring;
  suggestions : option (list jsstring)
}.

Record SpellSuggestions := {
  primary : option LanguageSuggestions;
  secondary : option LanguageSuggestions
}.

(** The spellchecker handed to the constructor.  [addCustomWord] is only
    called from a [click] closure, see [HostCall]. *)
Record Spellchecker := {
  hasSpellchecker : bool;
  spellchecker_suggestions : jsstring -> SpellSuggestions
}.

(** [this.config] after the constructor's [Object.assign]. *)
Record Config := {
  copyCurrentPageUrlOption : bool;
  openCurrentPageInBrowserOption : bool
}.

(** The [config] argument of the constructor: any key may be left out. *)
Record ConfigArg := {
  arg_copyCurrentPageUrlOption : option bool;
  arg_openCurrentPageInBrowserOption : option bool
}.

(** The fields of a [ContextMenu] instance. *)
Record ContextMenu := {
  spellchecker : option Spellchecker;
  config : Config
}.

(** An entry of [shared/dictionaries.js], of which only [name] is read. *)
Record DictEntry := {
  name : option jsstring
}.

(** The values of [role] the source uses. *)
Inductive Role :=
| undo | redo | cut | copy | paste | pasteandmatchstyle | selectall.

(** The [click] closures of the source, one constructor per arrow function,
    with the variables each one captures. *)
Inductive Click :=
| ReplaceMisspelling (suggestion : jsstring)     (* line 49 *)
| OpenLink (linkURL : jsstring)                  (* line 89 *)
| OpenLinkInBackground (linkURL : jsstring)      (* line 94 *)
| CopyLinkAddress (linkURL : jsstring)           (* line 99 *)
| AddToDictionary (misspelledWord : jsstring)    (* line 109 *)
| SearchGoogle (selectionText : jsstring)        (* line 118 *)
| CopyCurrentURL                                 (* line 159 *)
| OpenPageInBrowser                              (* line 166 *)
| WaveboxSettings                                (* line 176 *)
| Inspect (x y : Z).                             (* line 180 *)

(** The calls the closures make on Electron and on the spellchecker. *)
Inductive HostCall :=
| webContents_replaceMisspelling (suggestion : jsstring)
| shell_openExternal (url : jsstring) (activate : option bool)
| clipboard_writeText (text : jsstring)
| spellchecker_addCustomWord (word : jsstring)
| ipcRenderer_sendToHost_open_settings
| webContents_inspectElement (x y : Z).

(** An element of [menuTemplate].  A field the object literal leaves out is
    [None]. *)
#[warnings="-register-all"]
Inductive MenuNode :=
| Item (label : jsstring) (click : option Click) (role : option Role)
       (enabled : option bool)
| Submenu (label : jsstring) (submenu : list MenuNode)
| Separator.

Definition MenuTemplate := list MenuNode.

(** Electron enables an item unless [enabled] is given as [false]. *)
Definition node_enabled (n : MenuNode) : bool :=
  match n with
  | Item _ _ _ (Some b) => b
  | _ => true
  end.

Definition node_label (n : MenuNode) : option jsstring :=
  match n with
  | Item l _ _ _ => Some l
  | Submenu l _ => Some l
  | Separator => None
  end.

Definition node_click (n : MenuNode) : option Click :=
  match n with
  | Item _ c _ _ => c
  | _ => None
  end.

Definition isSeparator (n : MenuNode) : bool :=
  match n with
  | Separator => true
  | _ => false
  end.

(** ** The class *)

Definition defaultConfig : Config :=
  {| copyCurrentPageUrlOption := false;
     openCurrentPageInBrowserOption := false |}.

(** [Object.assign({}, ContextMenu.defaultConfig, config)] *)
Definition assignConfig (d : Config) (c : ConfigArg) : Config :=
  {| copyCurrentPageUrlOption :=
       match arg_copyCurrentPageUrlOption c with
       | Some b => b
       | None => copyCurrentPageUrlOption d
       end;
     openCurrentPageInBrowserOption :=
       match arg_openCurrentPageInBrowserOption c with
       | Some b => b
       | None => openCurrentPageInBrowserOption d
       end |}.

Definition emptyConfigArg : ConfigArg :=
  {| arg_copyCurrentPageUrlOption := None;
     arg_openCurrentPageInBrowserOption := None |}.

(** [constructor (spellchecker = undefined, config = {})]; the listener it
    registers on [webContents] is [launchMenu] below. *)
Definition constructor (sc : option Spellchecker) (c : ConfigArg)
  : ContextMenu :=
  {| spellchecker := sc; config := assignConfig defaultConfig c |}.

(** [_renderSuggestionMenuItems_ (suggestions)] on an array. *)
Definition _renderSuggestionMenuItems_ (suggs : list jsstring)
  : list MenuNode :=
  match suggs with
  | _ :: _ =>
      map (fun suggestion =>
             Item suggestion (Some (ReplaceMisspelling suggestion)) None None)
          suggs
  | [] => [Item (js "No Spelling Suggestions") None None (Some false)]
  end.

(** The same call with an argument that may be [null]: reading [.length]
    of [null] throws. *)
Definition renderSuggestionMenuItems_call (arg : option (list jsstring))
  : completion (list MenuNode) :=
  match arg with
  | Some suggs => Normal (_renderSuggestionMenuItems_ suggs)
  | None => Throw TypeError
  end.

(** [o.suggestions] where [o] may be [null]: a property read on [null]
    throws. *)
Definition get_suggestions (o : option LanguageSuggestions)
  : completion (option (list jsstring)) :=
  match o with
  | Some l => Normal (suggestions l)
  | None => Throw TypeError
  end.

(** The condition of lines 67 and 106,
    [params.isEditable && params.misspelledWord && this.spellchecker &&
     this.spellchecker.hasSpellchecker],
    giving the spellchecker and the word when it holds. *)
Definition spellingGate (self : ContextMenu) (params : Params)
  : option (Spellchecker * jsstring) :=
  if isEditable params then
    match misspelledWord params with
    | Some w =>
        if truthy w then
          match spellchecker self with
          | Some sc => if hasSpellchecker sc then Some (sc, w) else None
          | None => None
          end
        else None
    | None => None
    end
  else None.

Section Menu.

(** [process.platform] and the table of [shared/dictionaries.js], which is
    not part of this file. *)
Variable platform : jsstring.
Variable dictInfo : jsstring -> option DictEntry.

(** [(dictInfo[l.language] || {}).name || l.language] *)
Definition languageLabel (l : LanguageSuggestions) : jsstring :=
  match dictInfo (language l) with
  | Some e =>
      match name e with
      | Some n => if truthy n then n else language l
      | None => language l
      end
  | None => language l
  end.

(** Lines 66-83. *)
Definition spellingSection (self : ContextMenu) (params : Params)
  : completion (list MenuNode) :=
  match spellingGate self params with
  | Some (sc, w) =>
      let suggs := spellchecker_suggestions sc w in
      match primary suggs, secondary suggs with
      | Some p, Some s =>
          sub1 <- renderSuggestionMenuItems_call (suggestions p) ;;
          sub2 <- renderSuggestionMenuItems_call (suggestions s) ;;
          Normal [Submenu (languageLabel p) sub1;
                  Submenu (languageLabel s) sub2;
                  Separator]
      | _, _ =>
          suggList <-
            (ps <- get_suggestions (primary suggs) ;;
             match ps with
             | Some l => Normal l
             | None =>
                 ss <- get_suggestions (secondary suggs) ;;
                 match ss with
                 | Some l => Normal l
                 | None => Normal []
                 end
             end) ;;
          Normal (_renderSuggestionMenuItems_ suggList ++ [Separator])
      end
  | None => Normal []
  end.

(** Lines 85-102. *)
Definition linkSection (params : Params) : list MenuNode :=
  match linkURL params with
  | Some url =>
      if truthy url then
        [Item (js "Open Link") (Some (OpenLink url)) None None]
        ++ (if JS.eqb platform (js "darwin") then
              [Item (js "Open Link in Background")
                    (Some (OpenLinkInBackground url)) None None]
            else [])
        ++ [Item (js "Copy link Address") (Some (CopyLinkAddress url))
                 None None;
            Separator]
      else []
  | None => []
  end.

(** The template literal of line 117. *)
Definition searchLabel (displayText : jsstring) : jsstring :=
  js "Search Google for " ++ [ldquo] ++ displayText ++ [rdquo].

(** The template literal of line 108. *)
Definition addToDictionaryLabel (word : jsstring) : jsstring :=
  js "Add " ++ [ldquo] ++ word ++ [rdquo] ++ js " to Dictionary".

(** Lines 113-115. *)
Definition displayText (selectionText : jsstring) : jsstring :=
  if (50 <=? JS.length selectionText)%nat then
    substr selectionText 0 47 ++ [hellip]
  else selectionText.

(** Lines 104-121. *)
Definition searchSection (self : ContextMenu) (params : Params)
  : list MenuNode :=
  match selectionText params with
  | Some sel =>
      if truthy sel then
        (match spellingGate self params with
         | Some (_, w) =>
             [Item (addToDictionaryLabel w) (Some (AddToDictionary w))
                   None None]
         | None => []
         end)
        ++ [Item (searchLabel (displayText sel)) (Some (SearchGoogle sel))
                 None None;
            Separator]
      else []
  | None => []
  end.

(** Lines 133-138. *)
Definition undoRedoSection (f : EditFlags) : list MenuNode :=
  if canUndo f || canRedo f then
    [Item (js "Undo") None (Some undo) (Some (canUndo f));
     Item (js "Redo") None (Some redo) (Some (canRedo f));
     Separator]
  else [].

(** Lines 141-147: the array literal with its [null] entries, filtered. *)
Definition textEditingMenu (f : EditFlags) : list MenuNode :=
  let entries : list (option MenuNode) :=
    [ if canCut f then Some (Item (js "Cut") None (Some cut) None)
      else None;
      if canCopy f then Some (Item (js "Copy") None (Some copy) None)
      else None;
      if canPaste f then Some (Item (js "Paste") None (Some paste) None)
      else None;
      if canPaste f then
        Some (Item (js "Paste and match style") None
                   (Some pasteandmatchstyle) None)
      else None;
      if canSelectAll f then
        Some (Item (js "Select all") None (Some selectall) None)
      else None ] in
  flat_map (fun e => match e with Some n => [n] | None => [] end) entries.

(** Lines 148-151. *)
Definition textEditingSection (f : EditFlags) : list MenuNode :=
  match textEditingMenu f with
  | [] => []
  | (_ :: _) as m => m ++ [Separator]
  end.

(** Lines 153-171. *)
Definition currentPageSection (c : Config) : list MenuNode :=
  let currentPageHasOption := false in
  let '(currentPageHasOption, pushed1) :=
    if copyCurrentPageUrlOption c then
      (true, [Item (js "Copy current URL") (Some CopyCurrentURL) None None])
    else (currentPageHasOption, []) in
  let '(currentPageHasOption, pushed2) :=
    if openCurrentPageInBrowserOption c then
      (true,
       [Item (js "Open page in Browser") (Some OpenPageInBrowser) None None])
    else (currentPageHasOption, []) in
  pushed1 ++ pushed2
  ++ (if currentPageHasOption then [Separator] else []).

(** Lines 173-181. *)
Definition waveboxSection (params : Params) : list MenuNode :=
  [Item (js "Wavebox Settings") (Some WaveboxSettings) None None;
   Item (js "Inspect") (Some (Inspect (x params) (y params))) None None].

(** [launchMenu (evt, params)]: the array given to
    [Menu.buildFromTemplate]. *)
Definition launchMenu (self : ContextMenu) (params : Params)
  : completion MenuTemplate :=
  spelling <- spellingSection self params ;;
  Normal (spelling
          ++ linkSection params
          ++ searchSection self params
          ++ undoRedoSection (editFlags params)
          ++ textEditingSection (editFlags params)
          ++ currentPageSection (config self)
          ++ waveboxSection params).

End Menu.

(** ** Running a [click] closure *)

Section Invoke.

(** [window.location.href] at the time of the click, and the built-in
    [encodeURIComponent], which throws [URIError] on a lone surrogate. *)
Variable href : jsstring.
Variable encodeURIComponent : jsstring -> completion jsstring.

Definition searchURL (query : jsstring) : jsstring :=
  js "https://google.com/search?q=" ++ query.

Definition invoke (c : Click) : completion HostCall :=
  match c with
  | ReplaceMisspelling s => Normal (webContents_replaceMisspelling s)
  | OpenLink u => Normal (shell_openExternal u None)
  | OpenLinkInBackground u => Normal (shell_openExternal u (Some false))
  | CopyLinkAddress u => Normal (clipboard_writeText u)
  | AddToDictionary w => Normal (spellchecker_addCustomWord w)
  | SearchGoogle sel =>
      q <- encodeURIComponent sel ;;
      Normal (shell_openExternal (searchURL q) None)
  | CopyCurrentURL => Normal (clipboard_writeText href)
  | OpenPageInBrowser => Normal (shell_openExternal href None)
  | WaveboxSettings => Normal ipcRenderer_sendToHost_open_settings
  | Inspect px py => Normal (webContents_inspectElement px py)
  end.

End Invoke.

(** ** Observations on a template *)

Definition startsWithSeparator (t : MenuTemplate) : bool :=
  match t with
  | n :: _ => isSeparator n
  | [] => false
  end.

Fixpoint endsWithSeparator (t : MenuTemplate) : bool :=
  match t with
  | [] => false
  | [n] => isSeparator n
  | _ :: rest => endsWithSeparator rest
  end.

Fixpoint noAdjacentSeparators (t : MenuTemplate) : bool :=
  match t with
  | [] => true
  | n :: rest =>
      negb (isSeparator n && startsWithSeparator rest)
      && noAdjacentSeparators rest
  end.

(** [closedBySeparator l]: [l] is a run of non-separators followed by one
    [Separator], which is its last node. *)
Fixpoint closedBySeparator (l : list MenuNode) : bool :=
  match l with
  | [] => false
  | [n] => isSeparator n
  | n :: rest => negb (isSeparator n) && closedBySeparator rest
  end.

(** What a section may push: nothing, or at least one non-separator node
    and then exactly one [Separator]. *)
Definition sectionShape (l : list MenuNode) : bool :=
  match l with
  | [] => true
  | n :: rest => negb (isSeparator n) && closedBySeparator rest
  end.

(** The three ways the spelling section (lines 66-83) can complete
    normally: skipped, two language submenus, or the flattened items. *)
Inductive spellingOutcome : list MenuNode -> Prop :=
| spelling_skipped : spellingOutcome []
| spelling_submenus (l1 l2 : jsstring) (sub1 sub2 : list MenuNode) :
    spellingOutcome [Submenu l1 sub1; Submenu l2 sub2; Separator]
| spelling_flat (suggList : list jsstring) :
    spellingOutcome (_renderSuggestionMenuItems_ suggList ++ [Separator]).

(** The items pushed by lines 87-100, recognised by their closure. *)
Definition isLinkItem (n : MenuNode) : bool :=
  match node_click n with
  | Some (OpenLink _) | Some (OpenLinkInBackground _)
  | Some (CopyLinkAddress _) => true
  | _ => false
  end.

(** The item pushed by line 116. *)
Definition isSearchItem (n : MenuNode) : bool :=
  match node_click n with
  | Some (SearchGoogle _) => true
  | _ => false
  end.

(** The item pushed by line 107. *)
Definition isAddToDictionaryItem (n : MenuNode) : bool :=
  match node_click n with
  | Some (AddToDictionary _) => true
  | _ => false
  end.

(** The items pushed by lines 157 and 164. *)
Definition isCurrentPageItem (n : MenuNode) : bool :=
  match node_click n with
  | Some CopyCurrentURL | Some OpenPageInBrowser => true
  | _ => false
  end.

(** The two items of lines 144 and 145, recognised by their role. *)
Definition isPasteItem (n : MenuNode) : bool :=
  match n with
  | Item _ _ (Some paste) _ | Item _ _ (Some pasteandmatchstyle) _ => true
  | _ => false
  end.

Definition pasteItem : MenuNode :=
  Item (js "Paste") None (Some paste) None.

Definition pasteAndMatchStyleItem : MenuNode :=
  Item (js "Paste and match style") None (Some pasteandmatchstyle) None.

(** What the rest of the template looks like when a section is put in front
    of it: not empty, no separator at either end, no two in a row. *)
Definition wellSeparated (t : MenuTemplate) : bool :=
  noAdjacentSeparators t
  && negb (startsWithSeparator t)
  && negb (endsWithSeparator t).

(** The nodes of the link and current-page sections. *)
Definition openLinkItem (url : jsstring) : MenuNode :=
  Item (js "Open Link") (Some (OpenLink url)) None None.

Definition openLinkInBackgroundItem (url : jsstring) : MenuNode :=
  Item (js "Open Link in Background") (Some (OpenLinkInBackground url))
       None None.

Definition copyLinkAddressItem (url : jsstring) : MenuNode :=
  Item (js "Copy link Address") (Some (CopyLinkAddress url)) None None.

Definition copyCurrentURLItem : MenuNode :=
  Item (js "Copy current URL") (Some CopyCurrentURL) None None.

Definition openPageInBrowserItem : MenuNode :=
  Item (js "Open page in Browser") (Some OpenPageInBrowser) None None.

(** ** Updating one field of the inputs *)

Definition withCanPaste (b : bool) (f : EditFlags) : EditFlags :=
  {| canUndo := canUndo f; canRedo := canRedo f; canCut := canCut f;
     canCopy := canCopy f; canPaste := b; canSelectAll := canSelectAll f |}.

Definition withEditFlags (f : EditFlags) (p : Params) : Params :=
  {| isEditable := isEditable p; misspelledWord := misspelledWord p;
     selectionText := selectionText p; linkURL := linkURL p;
     editFlags := f; x := x p; y := y p |}.

Definition withMisspelledWord (w : option jsstring) (p : Params) : Params :=
  {| isEditable := isEditable p; misspelledWord := w;
     selectionText := selectionText p; linkURL := linkURL p;
     editFlags := editFlags p; x := x p; y := y p |}.

(** ** Inputs used in the scenarios *)

Definition noEditFlags : EditFlags :=
  {| canUndo := false; canRedo := false; canCut := false; canCopy := false;
     canPaste := false; canSelectAll := false |}.

Definition english (suggs : option (list jsstring)) : LanguageSuggestions :=
  {| language := js "en"; suggestions := suggs |}.

(** A spellchecker answering every word with the same object. *)
Definition constantSpellchecker (has : bool) (s : SpellSuggestions)
  : Spellchecker :=
  {| hasSpellchecker := has; spellchecker_suggestions := fun _ => s |}.

(** A right click on the misspelled word "teh" in an editable field, with
    nothing selected and no link. *)
Definition misspelledParams (f : EditFlags) : Params :=
  {| isEditable := true; misspelledWord := Some (js "teh");
     selectionText := None; linkURL := None; editFlags := f;
     x := 0%Z; y := 0%Z |}.

(** A right click on plain page content. *)
Definition plainParams (f : EditFlags) : Params :=
  {| isEditable := false; misspelledWord := None; selectionText := None;
     linkURL := None; editFlags := f; x := 0%Z; y := 0%Z |}.

Definition noDictInfo : jsstring -> option DictEntry := fun _ => None.

(** ** Further observations *)

Definition node_role (n : MenuNode) : option Role :=
  match n with
  | Item _ _ r _ => r
  | _ => None
  end.

(** Whether the condition of lines 67 and 106 holds. *)
Definition spellingGateOpen (self : ContextMenu) (params : Params) : bool :=
  match spellingGate self params with
  | Some _ => true
  | None => false
  end.

Definition present {A} (o : option A) : bool :=
  match o with
  | Some _ => true
  | None => false
  end.

(** The property reads of lines 69-79 that do not hit [null]: with both
    entries present each list is handed to [_renderSuggestionMenuItems_],
    which reads its [length]; otherwise line 79 reads
    [suggestions.primary.suggestions] first and goes on to
    [suggestions.secondary] only when that list is [null]. *)
Definition suggestionsReadable (s : SpellSuggestions) : bool :=
  match primary s, secondary s with
  | Some p, Some q => present (suggestions p) && present (suggestions q)
  | Some p, None => present (suggestions p)
  | None, _ => false
  end.

(** The items of lines 135 and 136. *)
Definition isUndoRedoItem (n : MenuNode) : bool :=
  match node_role n with
  | Some undo | Some redo => true
  | _ => false
  end.

(** The items of lines 142-146. *)
Definition isTextEditingItem (n : MenuNode) : bool :=
  match node_role n with
  | Some cut | Some copy | Some paste | Some pasteandmatchstyle
  | Some selectall => true
  | _ => false
  end.

(** The item of line 92. *)
Definition isOpenLinkInBackgroundItem (n : MenuNode) : bool :=
  match node_click n with
  | Some (OpenLinkInBackground _) => true
  | _ => false
  end.

Definition isSubmenu (n : MenuNode) : bool :=
  match n with
  | Submenu _ _ => true
  | _ => false
  end.

(** What [_renderSuggestionMenuItems_] pushes: an item with the
    [replaceMisspelling] closure, or the disabled placeholder. *)
Definition isSuggestionNode (n : MenuNode) : bool :=
  match n with
  | Item _ (Some (ReplaceMisspelling _)) None None => true
  | Item _ None None (Some false) => true
  | _ => false
  end.

(** The kinds of node the source writes: an item with a [click] and nothing
    else, an item with a [role] and no [click], the disabled placeholder, a
    submenu of suggestion nodes, a separator. *)
Definition knownNode (n : MenuNode) : bool :=
  match n with
  | Item _ (Some _) None None => true
  | Item _ None (Some undo) (Some _) => true
  | Item _ None (Some redo) (Some _) => true
  | Item _ None (Some _) None => true
  | Item _ None None (Some false) => true
  | Item _ _ _ _ => false
  | Submenu _ sub => forallb isSuggestionNode sub
  | Separator => true
  end.

(** ** The listener registered by the constructor *)

(** A listener on [webContents]: [this.launchMenu.bind(this)] of some
    instance, or a listener installed by other code. *)
Inductive Listener :=
| LaunchMenuOf (self : ContextMenu)
| OtherListener (id : nat).

(** The listeners of [webContents], as (event name, listener) in the order of
    registration. *)
Definition WebContents := list (jsstring * Listener).

(** [webContents.removeAllListeners(event)] *)
Definition removeAllListeners (event : jsstring) (wc : WebContents)
  : WebContents :=
  filter (fun l => negb (JS.eqb (fst l) event)) wc.

(** [webContents.on(event, listener)] *)
Definition on (event : jsstring) (l : Listener) (wc : WebContents)
  : WebContents :=
  wc ++ [(event, l)].

(** [webContents.listeners(event)] *)
Definition listenersOf (event : jsstring) (wc : WebContents)
  : list Listener :=
  map snd (filter (fun l => JS.eqb (fst l) event) wc).

(** [new ContextMenu(spellchecker, config)], lines 26-32, with its effect on
    [webContents]. *)
Definition new_ContextMenu (sc : option Spellchecker) (c : ConfigArg)
    (wc : WebContents) : ContextMenu * WebContents :=
  let this := constructor sc c in
  (this,
   on (js "context-menu") (LaunchMenuOf this)
      (removeAllListeners (js "context-menu") wc)).

(** Constructing one instance after the other, each with its arguments. *)
Fixpoint new_ContextMenus (args : list (option Spellchecker * ConfigArg))
    (wc : WebContents) : WebContents :=
  match args with
  | [] => wc
  | (sc, c) :: rest => new_ContextMenus rest (snd (new_ContextMenu sc c wc))
  end.

(** ** Proof automation *)

(** Case analysis on every condition the sections after the spelling section
    test. *)
Ltac section_cases :=
  unfold linkSection, searchSection, undoRedoSection, textEditingSection,
    textEditingMenu, currentPageSection, waveboxSection;
  repeat match goal with
         | |- context [linkURL ?p] => destruct (linkURL p)
         | |- context [selectionText ?p] => destruct (selectionText p)
         | |- context [truthy ?u] => destruct (truthy u)
         | |- context [JS.eqb ?a ?b] => destruct (JS.eqb a b)
         | |- context [spellingGate ?s ?p] =>
             destruct (spellingGate s p) as [[? ?]|]
         | |- context [canUndo ?f] => destruct (canUndo f)
         | |- context [canRedo ?f] => destruct (canRedo f)
         | |- context [canCut ?f] => destruct (canCut f)
         | |- context [canCopy ?f] => destruct (canCopy f)
         | |- context [canPaste ?f] => destruct (canPaste f)
         | |- context [canSelectAll ?f] => destruct (canSelectAll f)
         | |- context [copyCurrentPageUrlOption ?c] =>
             destruct (copyCurrentPageUrlOption c)
         | |- context [openCurrentPageInBrowserOption ?c] =>
             destruct (openCurrentPageInBrowserOption c)
         end;
  try reflexivity.

(** ** Suggestion items *)

Lemma render_nonempty (suggs : list jsstring) :
  _renderSuggestionMenuItems_ suggs <> [].
Proof. destruct suggs; discriminate. Qed.

Lemma render_no_separator (suggs : list jsstring) :
  existsb isSeparator (_renderSuggestionMenuItems_ suggs) = false.
Proof.
  destruct suggs as [|s rest]; [reflexivity|].
  unfold _renderSuggestionMenuItems_.
  generalize (s :: rest) as l.
  induction l as [|a l IH]; simpl; auto.
Qed.

(** C4.  [_renderSuggestionMenuItems_] is a total function on arrays of
    strings.  On the empty array it returns exactly one item, labelled
    "No Spelling Suggestions" and disabled.  On [s1, ..., sn] with [n >= 1] it
    returns [n] items in the order of the input, the i-th labelled [si],
    enabled, and with a [click] that calls
    [webContents.replaceMisspelling(si)]. *)
Theorem render_suggestions_shape :
  _renderSuggestionMenuItems_ []
    = [Item (js "No Spelling Suggestions") None None (Some false)]
  /\ map node_enabled (_renderSuggestionMenuItems_ []) = [false]
  /\ forall (s1 : jsstring) (rest : list jsstring),
       let suggs := s1 :: rest in
       let items := _renderSuggestionMenuItems_ suggs in
       items = map (fun s => Item s (Some (ReplaceMisspelling s)) None None)
                   suggs
       /\ List.length items = List.length suggs
       /\ map node_label items = map (@Some jsstring) suggs
       /\ forallb node_enabled items = true
       /\ map node_click items
          = map (fun s => Some (ReplaceMisspelling s)) suggs
       /\ forall href encodeURIComponent,
            map (fun s => invoke href encodeURIComponent
                                 (ReplaceMisspelling s)) suggs
            = map (fun s => Normal (webContents_replaceMisspelling s)) suggs.
Proof.
  split; [reflexivity|]. split; [reflexivity|].
  intros s1 rest suggs items.
  assert (E : items
              = map (fun s => Item s (Some (ReplaceMisspelling s)) None None)
                    suggs) by reflexivity.
  rewrite E. clear E items. generalize suggs as l. clear. intro l.
  repeat split.
  - rewrite length_map. reflexivity.
  - rewrite map_map. reflexivity.
  - induction l as [|a l IH]; simpl; auto.
  - rewrite map_map. reflexivity.
Qed.

(** ** Lists *)

Lemma filter_none {A} (P : A -> bool) (l : list A) :
  existsb P l = false -> filter P l = [].
Proof.
  induction l as [|a l IH]; simpl; [reflexivity|].
  intro H. apply orb_false_elim in H as [Ha Hl]. rewrite Ha. auto.
Qed.

(** ** Sections and separators *)

Lemma closedBySeparator_cons n rest :
  rest <> [] ->
  closedBySeparator (n :: rest)
  = negb (isSeparator n) && closedBySeparator rest.
Proof. destruct rest; [congruence | reflexivity]. Qed.

Lemma closedBySeparator_body body :
  existsb isSeparator body = false ->
  closedBySeparator (body ++ [Separator]) = true.
Proof.
  induction body as [|n body IH]; [reflexivity|].
  simpl existsb. intro H. apply orb_false_elim in H as [Hn Hb].
  simpl app. rewrite closedBySeparator_cons by (destruct body; discriminate).
  rewrite Hn, IH by assumption. reflexivity.
Qed.

Lemma sectionShape_body body :
  body <> [] ->
  existsb isSeparator body = false ->
  sectionShape (body ++ [Separator]) = true.
Proof.
  destruct body as [|n body]; [congruence|].
  intros _ H. simpl in H. apply orb_false_elim in H as [Hn Hb].
  simpl. rewrite Hn. apply closedBySeparator_body. exact Hb.
Qed.

(** ** The spelling section *)

Section Spelling.

Variable platform : jsstring.
Variable dictInfo : jsstring -> option DictEntry.

Lemma spellingSection_outcome self params sp :
  spellingSection dictInfo self params = Normal sp -> spellingOutcome sp.
Proof.
  unfold spellingSection.
  destruct (spellingGate self params) as [[sc w]|].
  - destruct (spellchecker_suggestions sc w) as [[p|] [s|]]; simpl.
    + destruct (suggestions p), (suggestions s); simpl;
        intro H; inversion H; constructor.
    + destruct (suggestions p); simpl; intro H; inversion H; constructor.
    + discriminate.
    + discriminate.
  - intro H; inversion H; constructor.
Qed.

(** Without a primary entry the read [suggestions.primary.suggestions] of
    line 79 throws, whatever [secondary] holds. *)
Lemma spellingSection_without_primary self params sc w :
  spellingGate self params = Some (sc, w) ->
  primary (spellchecker_suggestions sc w) = None ->
  spellingSection dictInfo self params = Throw TypeError.
Proof.
  intros G P. unfold spellingSection. rewrite G. simpl. rewrite P.
  reflexivity.
Qed.

(** With only a primary entry whose list is present, line 79 takes that
    list. *)
Lemma spellingSection_primary_only self params sc w p l :
  spellingGate self params = Some (sc, w) ->
  primary (spellchecker_suggestions sc w) = Some p ->
  secondary (spellchecker_suggestions sc w) = None ->
  suggestions p = Some l ->
  spellingSection dictInfo self params
  = Normal (_renderSuggestionMenuItems_ l ++ [Separator]).
Proof.
  intros G P S L. unfold spellingSection. rewrite G. simpl.
  rewrite P, S. simpl. rewrite L. reflexivity.
Qed.

Lemma spellingOutcome_shape sp :
  spellingOutcome sp -> sectionShape sp = true.
Proof.
  destruct 1; try reflexivity.
  apply sectionShape_body.
  - apply render_nonempty.
  - apply render_no_separator.
Qed.

(** A predicate that rejects separators, submenus and the suggestion items
    rejects every node of the spelling section. *)
Lemma spellingOutcome_existsb (P : MenuNode -> bool) sp :
  spellingOutcome sp ->
  P Separator = false ->
  (forall l sub, P (Submenu l sub) = false) ->
  (forall l e, P (Item l None None e) = false) ->
  (forall l s, P (Item l (Some (ReplaceMisspelling s)) None None) = false) ->
  existsb P sp = false.
Proof.
  intros O HS HM HN HR. destruct O; simpl.
  - reflexivity.
  - rewrite !HM, HS. reflexivity.
  - rewrite existsb_app. simpl. rewrite HS, !orb_false_r.
    destruct suggList as [|s rest]; simpl.
    + rewrite HN. reflexivity.
    + rewrite HR. induction rest as [|a rest IH]; simpl; auto.
      rewrite HR. exact IH.
Qed.

End Spelling.

(** C1.  The fallback of line 79,
    [suggestions.primary.suggestions || suggestions.secondary.suggestions || []],
    is reached only when [primary] and [secondary] are not both present, and
    it reads [.suggestions] of each without testing the object first.  With
    the gate of line 67 open, [launchMenu] therefore throws a [TypeError] and
    builds no menu (i) when only [secondary] is present, (ii) when neither
    entry is present, and (iii) when [primary] is present with a [null] list
    and [secondary] is absent; it neither takes [secondary]'s list nor falls
    back to the empty list. *)
Theorem spelling_fallback_throws_without_primary :
  forall platform dictInfo cfg f,
    launchMenu platform dictInfo
      {| spellchecker :=
           Some (constantSpellchecker true
                   {| primary := None;
                      secondary := Some (english (Some [js "the"; js "ten"]))
                   |});
         config := cfg |}
      (misspelledParams f) = Throw TypeError
    /\ launchMenu platform dictInfo
         {| spellchecker :=
              Some (constantSpellchecker true
                      {| primary := None; secondary := None |});
            config := cfg |}
         (misspelledParams f) = Throw TypeError
    /\ launchMenu platform dictInfo
         {| spellchecker :=
              Some (constantSpellchecker true
                      {| primary := Some (english None); secondary := None |});
            config := cfg |}
         (misspelledParams f) = Throw TypeError.
Proof.
  intros platform dictInfo cfg f. unfold launchMenu.
  split; [|split].
  - rewrite spellingSection_without_primary
      with (sc := constantSpellchecker true
                    {| primary := None;
                       secondary := Some (english (Some [js "the"; js "ten"]))
                    |})
           (w := js "teh"); reflexivity.
  - rewrite spellingSection_without_primary
      with (sc := constantSpellchecker true
                    {| primary := None; secondary := None |})
           (w := js "teh"); reflexivity.
  - reflexivity.
Qed.

(** C5.  Right click on the misspelled word "teh" in an editable field, no
    selection, no link, [canUndo] alone among the edit flags, the default
    configuration, and a spellchecker (with [hasSpellchecker]) that answers
    "teh" with only [primary = {language: "en", suggestions: ["the", "ten"]}]:
    the template is exactly the items "the" and "ten" (directly in the menu,
    not in a submenu), a separator, Undo enabled, Redo disabled, a separator,
    Wavebox Settings, Inspect. *)
Theorem scenario_misspelled_primary_only :
  forall platform dictInfo sc px py,
    hasSpellchecker sc = true ->
    spellchecker_suggestions sc (js "teh")
    = {| primary := Some (english (Some [js "the"; js "ten"]));
         secondary := None |} ->
    launchMenu platform dictInfo (constructor (Some sc) emptyConfigArg)
      {| isEditable := true; misspelledWord := Some (js "teh");
         selectionText := None; linkURL := None;
         editFlags := {| canUndo := true; canRedo := false; canCut := false;
                         canCopy := false; canPaste := false;
                         canSelectAll := false |};
         x := px; y := py |}
    = Normal
        [Item (js "the") (Some (ReplaceMisspelling (js "the"))) None None;
         Item (js "ten") (Some (ReplaceMisspelling (js "ten"))) None None;
         Separator;
         Item (js "Undo") None (Some undo) (Some true);
         Item (js "Redo") None (Some redo) (Some false);
         Separator;
         Item (js "Wavebox Settings") (Some WaveboxSettings) None None;
         Item (js "Inspect") (Some (Inspect px py)) None None].
Proof.
  intros platform dictInfo sc px py Hhas Hsugg. unfold launchMenu.
  rewrite spellingSection_primary_only
    with (sc := sc) (w := js "teh")
         (p := english (Some [js "the"; js "ten"]))
         (l := [js "the"; js "ten"]).
  - reflexivity.
  - unfold spellingGate, constructor. simpl. rewrite Hhas. reflexivity.
  - rewrite Hsugg. reflexivity.
  - rewrite Hsugg. reflexivity.
  - reflexivity.
Qed.

Lemma scenario_misspelled_primary_only_witness :
  launchMenu (js "linux") noDictInfo
    (constructor
       (Some (constantSpellchecker true
                {| primary := Some (english (Some [js "the"; js "ten"]));
                   secondary := None |}))
       emptyConfigArg)
    {| isEditable := true; misspelledWord := Some (js "teh");
       selectionText := None; linkURL := None;
       editFlags := {| canUndo := true; canRedo := false; canCut := false;
                       canCopy := false; canPaste := false;
                       canSelectAll := false |};
       x := 12%Z; y := 34%Z |}
  = Normal
      [Item (js "the") (Some (ReplaceMisspelling (js "the"))) None None;
       Item (js "ten") (Some (ReplaceMisspelling (js "ten"))) None None;
       Separator;
       Item (js "Undo") None (Some undo) (Some true);
       Item (js "Redo") None (Some redo) (Some false);
       Separator;
       Item (js "Wavebox Settings") (Some WaveboxSettings) None None;
       Item (js "Inspect") (Some (Inspect 12 34)) None None].
Proof.
  apply (scenario_misspelled_primary_only (js "linux") noDictInfo
           (constantSpellchecker true
              {| primary := Some (english (Some [js "the"; js "ten"]));
                 secondary := None |}) 12 34); reflexivity.
Defined.

(** ** Separator placement *)

Lemma endsWithSeparator_cons n rest :
  rest <> [] -> endsWithSeparator (n :: rest) = endsWithSeparator rest.
Proof. destruct rest; [congruence | reflexivity]. Qed.

Lemma closed_run_before rest body :
  rest <> [] ->
  wellSeparated rest = true ->
  closedBySeparator body = true ->
  noAdjacentSeparators (body ++ rest) = true
  /\ endsWithSeparator (body ++ rest) = false.
Proof.
  intros Hne Hw. unfold wellSeparated in Hw.
  apply andb_prop in Hw as [Hw He]. apply andb_prop in Hw as [Hn Hs].
  apply negb_true_iff in Hs, He.
  induction body as [|m body IH]; [discriminate|].
  destruct body as [|m' body].
  - simpl. intro Hm. rewrite Hm, Hs, Hn.
    split; [reflexivity|].
    destruct rest; [congruence | exact He].
  - rewrite closedBySeparator_cons by discriminate.
    intro H. apply andb_prop in H as [Hm Hb].
    apply negb_true_iff in Hm.
    destruct (IH Hb) as [IHn IHe].
    split.
    + change (negb (isSeparator m && startsWithSeparator ((m' :: body) ++ rest))
              && noAdjacentSeparators ((m' :: body) ++ rest) = true).
      rewrite Hm, IHn. reflexivity.
    + change (endsWithSeparator (m :: ((m' :: body) ++ rest)) = false).
      rewrite endsWithSeparator_cons by discriminate. exact IHe.
Qed.

Lemma section_before rest s :
  rest <> [] ->
  wellSeparated rest = true ->
  sectionShape s = true ->
  s ++ rest <> [] /\ wellSeparated (s ++ rest) = true.
Proof.
  intros Hne Hw Hs. destruct s as [|n body]; [auto|].
  split; [discriminate|].
  simpl in Hs. apply andb_prop in Hs as [Hn Hb].
  apply negb_true_iff in Hn.
  destruct (closed_run_before body Hne Hw Hb) as [Ha He].
  assert (E : wellSeparated ((n :: body) ++ rest)
              = negb (isSeparator n && startsWithSeparator (body ++ rest))
                && noAdjacentSeparators (body ++ rest)
                && negb (isSeparator n)
                && negb (endsWithSeparator (n :: (body ++ rest))))
    by reflexivity.
  rewrite E, endsWithSeparator_cons by (destruct body; discriminate).
  rewrite Hn, Ha, He. reflexivity.
Qed.

Section Shapes.

Variable platform : jsstring.
Variable dictInfo : jsstring -> option DictEntry.

Lemma linkSection_shape params :
  sectionShape (linkSection platform params) = true.
Proof.
  unfold linkSection. destruct (linkURL params) as [url|]; [|reflexivity].
  destruct (truthy url); [|reflexivity].
  destruct (JS.eqb platform (js "darwin")); reflexivity.
Qed.

Lemma searchSection_shape self params :
  sectionShape (searchSection self params) = true.
Proof.
  unfold searchSection. destruct (selectionText params) as [sel|];
    [|reflexivity].
  destruct (truthy sel); [|reflexivity].
  destruct (spellingGate self params) as [[sc w]|]; reflexivity.
Qed.

Lemma undoRedoSection_shape f : sectionShape (undoRedoSection f) = true.
Proof.
  unfold undoRedoSection. destruct (canUndo f || canRedo f); reflexivity.
Qed.

Lemma textEditingSection_shape f :
  sectionShape (textEditingSection f) = true.
Proof.
  unfold textEditingSection, textEditingMenu.
  destruct (canCut f), (canCopy f), (canPaste f), (canSelectAll f);
    reflexivity.
Qed.

Lemma currentPageSection_shape c :
  sectionShape (currentPageSection c) = true.
Proof.
  unfold currentPageSection.
  destruct (copyCurrentPageUrlOption c),
           (openCurrentPageInBrowserOption c); reflexivity.
Qed.

Lemma launchMenu_sections self params t :
  launchMenu platform dictInfo self params = Normal t ->
  exists sp,
    spellingSection dictInfo self params = Normal sp
    /\ t = sp ++ linkSection platform params
              ++ searchSection self params
              ++ undoRedoSection (editFlags params)
              ++ textEditingSection (editFlags params)
              ++ currentPageSection (config self)
              ++ waveboxSection params.
Proof.
  unfold launchMenu.
  destruct (spellingSection dictInfo self params) as [sp|e]; simpl;
    [|discriminate].
  intro H. inversion H. exists sp. split; reflexivity.
Qed.

(** C2.  Whenever [launchMenu] builds a template, the template has no two
    adjacent separators and neither begins nor ends with a separator.  It
    is the concatenation of the spelling, link, search, undo/redo,
    text-editing and current-page sections followed by the Wavebox section;
    each of the six is either empty or at least one non-separator node
    followed by exactly one separator, its last node, and the Wavebox
    section holds no separator. *)
Theorem separators_only_between_sections :
  forall self params t,
    launchMenu platform dictInfo self params = Normal t ->
    (noAdjacentSeparators t = true
     /\ startsWithSeparator t = false
     /\ endsWithSeparator t = false)
    /\ (exists sp,
          spellingSection dictInfo self params = Normal sp
          /\ t = sp ++ linkSection platform params
                    ++ searchSection self params
                    ++ undoRedoSection (editFlags params)
                    ++ textEditingSection (editFlags params)
                    ++ currentPageSection (config self)
                    ++ waveboxSection params
          /\ sectionShape sp = true)
    /\ sectionShape (linkSection platform params) = true
    /\ sectionShape (searchSection self params) = true
    /\ sectionShape (undoRedoSection (editFlags params)) = true
    /\ sectionShape (textEditingSection (editFlags params)) = true
    /\ sectionShape (currentPageSection (config self)) = true
    /\ existsb isSeparator (waveboxSection params) = false.
Proof.
  intros self params t H.
  destruct (launchMenu_sections _ _ H) as (sp & Hsp & Ht).
  pose proof (spellingOutcome_shape (spellingSection_outcome _ _ _ Hsp))
    as Ssp.
  pose proof (linkSection_shape params) as Sl.
  pose proof (searchSection_shape self params) as Ss.
  pose proof (undoRedoSection_shape (editFlags params)) as Su.
  pose proof (textEditingSection_shape (editFlags params)) as St.
  pose proof (currentPageSection_shape (config self)) as Sc.
  split; [|split; [exists sp; auto|repeat split; auto]].
  assert (W0 : waveboxSection params <> []
               /\ wellSeparated (waveboxSection params) = true)
    by (split; [discriminate | reflexivity]).
  destruct W0 as [N0 W0].
  destruct (@section_before _ _ N0 W0 Sc) as [N1 W1].
  destruct (@section_before _ _ N1 W1 St) as [N2 W2].
  destruct (@section_before _ _ N2 W2 Su) as [N3 W3].
  destruct (@section_before _ _ N3 W3 Ss) as [N4 W4].
  destruct (@section_before _ _ N4 W4 Sl) as [N5 W5].
  destruct (@section_before _ _ N5 W5 Ssp) as [N6 W6].
  rewrite <- Ht in W6. unfold wellSeparated in W6.
  apply andb_prop in W6 as [W6 We]. apply andb_prop in W6 as [Wn Ws].
  apply negb_true_iff in Ws, We. auto.
Qed.

End Shapes.

Lemma separators_only_between_sections_witness :
  let t := [Item (js "Undo") None (Some undo) (Some true);
            Item (js "Redo") None (Some redo) (Some false);
            Separator;
            Item (js "Cut") None (Some cut) None;
            Separator;
            Item (js "Wavebox Settings") (Some WaveboxSettings) None None;
            Item (js "Inspect") (Some (Inspect 0 0)) None None] in
  noAdjacentSeparators t = true
  /\ startsWithSeparator t = false
  /\ endsWithSeparator t = false.
Proof.
  destruct (separators_only_between_sections (js "linux") noDictInfo
              {| spellchecker := None; config := defaultConfig |}
              (plainParams {| canUndo := true; canRedo := false;
                              canCut := true; canCopy := false;
                              canPaste := false; canSelectAll := false |})
              eq_refl) as [placed _].
  exact placed.
Defined.

(** ** Which section an item comes from *)

Section Origins.

Variable platform : jsstring.
Variable dictInfo : jsstring -> option DictEntry.

(** The nodes of the template that satisfy [P], section by section. *)
Lemma launchMenu_filter (P : MenuNode -> bool) self params t :
  launchMenu platform dictInfo self params = Normal t ->
  P Separator = false ->
  (forall l sub, P (Submenu l sub) = false) ->
  (forall l e, P (Item l None None e) = false) ->
  (forall l s, P (Item l (Some (ReplaceMisspelling s)) None None) = false) ->
  filter P t
  = filter P (linkSection platform params)
    ++ filter P (searchSection self params)
    ++ filter P (undoRedoSection (editFlags params))
    ++ filter P (textEditingSection (editFlags params))
    ++ filter P (currentPageSection (config self))
    ++ filter P (waveboxSection params).
Proof.
  intros H HS HM HN HR.
  destruct (launchMenu_sections _ _ _ _ H) as (sp & Hsp & Ht).
  rewrite Ht, !filter_app.
  rewrite (@filter_none _ P sp); [reflexivity|].
  apply spellingOutcome_existsb; auto.
  eapply spellingSection_outcome; eauto.
Qed.

Lemma searchItem_only_in_searchSection self params :
  filter isSearchItem (linkSection platform params) = []
  /\ filter isSearchItem (undoRedoSection (editFlags params)) = []
  /\ filter isSearchItem (textEditingSection (editFlags params)) = []
  /\ filter isSearchItem (currentPageSection (config self)) = []
  /\ filter isSearchItem (waveboxSection params) = [].
Proof. repeat split; section_cases. Qed.

Lemma searchSection_searchItem self params :
  filter isSearchItem (searchSection self params)
  = match selectionText params with
    | Some sel =>
        if truthy sel then
          [Item (searchLabel (displayText sel)) (Some (SearchGoogle sel))
                None None]
        else []
    | None => []
    end.
Proof. section_cases. Qed.

End Origins.

Lemma displayText_long sel :
  (50 <= JS.length sel)%nat ->
  displayText sel = firstn 47 sel ++ [hellip]
  /\ List.length (firstn 47 sel) = 47%nat.
Proof.
  intro H. unfold displayText, substr.
  destruct (Nat.leb_spec 50 (JS.length sel)) as [_|C]; [|lia].
  split; [reflexivity|].
  unfold JS.length in H. rewrite length_firstn. lia.
Qed.

Lemma displayText_short sel :
  (JS.length sel < 50)%nat -> displayText sel = sel.
Proof.
  intro H. unfold displayText.
  destruct (Nat.leb_spec 50 (JS.length sel)) as [C|_]; [lia | reflexivity].
Qed.

(** C3.  When the selection has at least 50 UTF-16 code units, the template
    holds exactly one search item; its label is "Search Google for " followed
    by the first 47 code units of the selection and one ellipsis between the
    curly quotes, and its [click] opens "https://google.com/search?q="
    followed by [encodeURIComponent] of the whole selection.  When the
    selection is not empty and shorter than 50, the label holds the selection
    unchanged. *)
Theorem search_label_truncated_query_full :
  forall platform dictInfo self params sel t,
    selectionText params = Some sel ->
    launchMenu platform dictInfo self params = Normal t ->
    ((50 <= JS.length sel)%nat ->
       filter isSearchItem t
       = [Item (js "Search Google for " ++ [ldquo]
                  ++ (firstn 47 sel ++ [hellip]) ++ [rdquo])
               (Some (SearchGoogle sel)) None None]
       /\ List.length (firstn 47 sel) = 47%nat)
    /\ ((0 < JS.length sel < 50)%nat ->
          filter isSearchItem t
          = [Item (js "Search Google for " ++ [ldquo] ++ sel ++ [rdquo])
                  (Some (SearchGoogle sel)) None None])
    /\ (forall href encodeURIComponent query,
          encodeURIComponent sel = Normal query ->
          invoke href encodeURIComponent (SearchGoogle sel)
          = Normal (shell_openExternal
                      (js "https://google.com/search?q=" ++ query) None)).
Proof.
  intros platform dictInfo self params sel t Hsel H.
  assert (F : filter isSearchItem t
              = if truthy sel then
                  [Item (searchLabel (displayText sel))
                        (Some (SearchGoogle sel)) None None]
                else []).
  { rewrite (@launchMenu_filter _ _ isSearchItem _ _ _ H) by reflexivity.
    destruct (searchItem_only_in_searchSection platform self params)
      as (E1 & E2 & E3 & E4 & E5).
    rewrite E1, E2, E3, E4, E5, searchSection_searchItem, Hsel.
    rewrite !app_nil_r. reflexivity. }
  split; [|split].
  - intro L. destruct (displayText_long sel L) as [D N].
    rewrite F, D. destruct sel; [simpl in L; lia|].
    split; [reflexivity | exact N].
  - intros [L0 L]. rewrite F, (displayText_short sel L).
    destruct sel; [simpl in L0; lia | reflexivity].
  - intros href enc query E. simpl. rewrite E. reflexivity.
Qed.

Lemma search_label_truncated_query_full_witness :
  filter isSearchItem
    [Item (js "Search Google for " ++ [ldquo]
             ++ (repeat 97%N 47 ++ [hellip]) ++ [rdquo])
          (Some (SearchGoogle (repeat 97%N 60))) None None;
     Separator;
     Item (js "Wavebox Settings") (Some WaveboxSettings) None None;
     Item (js "Inspect") (Some (Inspect 0 0)) None None]
  = [Item (js "Search Google for " ++ [ldquo]
             ++ (firstn 47 (repeat 97%N 60) ++ [hellip]) ++ [rdquo])
          (Some (SearchGoogle (repeat 97%N 60))) None None]
  /\ invoke [] (fun s => Normal s) (SearchGoogle (repeat 97%N 60))
     = Normal (shell_openExternal
                 (js "https://google.com/search?q=" ++ repeat 97%N 60) None).
Proof.
  destruct (search_label_truncated_query_full (js "linux") noDictInfo
              {| spellchecker := None; config := defaultConfig |}
              {| isEditable := false; misspelledWord := None;
                 selectionText := Some (repeat 97%N 60); linkURL := None;
                 editFlags := noEditFlags; x := 0%Z; y := 0%Z |}
              eq_refl eq_refl) as (Long & _ & Click).
  split.
  - apply Long. vm_compute. lia.
  - apply (Click [] (fun s => Normal s)). reflexivity.
Defined.

(** ** What the menu depends on *)

Section Dependence.

Variable platform : jsstring.
Variable dictInfo : jsstring -> option DictEntry.

(** The instance and [params.isEditable], [params.misspelledWord] are read
    only through the condition of lines 67 and 106. *)
Lemma launchMenu_ext self self' p p' :
  spellingGate self p = spellingGate self' p' ->
  config self = config self' ->
  linkURL p = linkURL p' ->
  selectionText p = selectionText p' ->
  editFlags p = editFlags p' ->
  x p = x p' ->
  y p = y p' ->
  launchMenu platform dictInfo self p
  = launchMenu platform dictInfo self' p'.
Proof.
  intros G C L S F X Y.
  unfold launchMenu, spellingSection, linkSection, searchSection,
    waveboxSection.
  rewrite G, C, L, S, F, X, Y. reflexivity.
Qed.

Lemma launchMenu_gate_closed self params :
  spellingGate self params = None ->
  spellingSection dictInfo self params = Normal []
  /\ launchMenu platform dictInfo self params
     = Normal (linkSection platform params
               ++ searchSection self params
               ++ undoRedoSection (editFlags params)
               ++ textEditingSection (editFlags params)
               ++ currentPageSection (config self)
               ++ waveboxSection params).
Proof.
  intro G. unfold launchMenu, spellingSection. rewrite G.
  split; reflexivity.
Qed.

Lemma no_addToDictionary_gate_closed self params :
  spellingGate self params = None ->
  existsb isAddToDictionaryItem
    (linkSection platform params
     ++ searchSection self params
     ++ undoRedoSection (editFlags params)
     ++ textEditingSection (editFlags params)
     ++ currentPageSection (config self)
     ++ waveboxSection params) = false.
Proof.
  intro G. rewrite !existsb_app.
  assert (S : existsb isAddToDictionaryItem (searchSection self params)
              = false).
  { unfold searchSection. rewrite G.
    destruct (selectionText params) as [sel|]; [|reflexivity].
    destruct (truthy sel); reflexivity. }
  rewrite S. clear G S.
  repeat match goal with
         | |- context [existsb _ ?s] =>
             let E := fresh "E" in
             assert (E : existsb isAddToDictionaryItem s = false)
               by section_cases;
             rewrite E; clear E
         end.
  reflexivity.
Qed.

(** C6.  A spellchecker with [hasSpellchecker] false gives the same result
    as no spellchecker, for every [params] and configuration: in both cases
    the condition shared by the spelling section (line 67) and the
    Add-to-Dictionary item (line 106) is false. *)
Theorem spellchecker_without_capability_as_absent :
  forall sc cfg params,
    hasSpellchecker sc = false ->
    launchMenu platform dictInfo
      {| spellchecker := Some sc; config := cfg |} params
    = launchMenu platform dictInfo
        {| spellchecker := None; config := cfg |} params
    /\ spellingGate {| spellchecker := Some sc; config := cfg |} params
       = None
    /\ spellingGate {| spellchecker := None; config := cfg |} params = None.
Proof.
  intros sc cfg params Hhas.
  assert (G1 : spellingGate {| spellchecker := Some sc; config := cfg |}
                 params = None).
  { unfold spellingGate. simpl. rewrite Hhas.
    destruct (isEditable params); [|reflexivity].
    destruct (misspelledWord params) as [w|]; [|reflexivity].
    destruct (truthy w); reflexivity. }
  assert (G2 : spellingGate {| spellchecker := None; config := cfg |}
                 params = None).
  { unfold spellingGate. simpl.
    destruct (isEditable params); [|reflexivity].
    destruct (misspelledWord params) as [w|]; [|reflexivity].
    destruct (truthy w); reflexivity. }
  split; [|split; assumption].
  apply launchMenu_ext; try reflexivity. rewrite G1, G2. reflexivity.
Qed.

(** C9.  With [params.misspelledWord] the empty string the result is the
    one obtained with [misspelledWord] [null]: the condition of lines 67 and
    106 is false, the spelling section pushes nothing, and the template
    holds no Add-to-Dictionary item. *)
Theorem empty_misspelledWord_as_absent :
  forall self params,
    launchMenu platform dictInfo self
      (withMisspelledWord (Some []) params)
    = launchMenu platform dictInfo self (withMisspelledWord None params)
    /\ spellingGate self (withMisspelledWord (Some []) params) = None
    /\ spellingSection dictInfo self (withMisspelledWord (Some []) params)
       = Normal []
    /\ exists t,
         launchMenu platform dictInfo self
           (withMisspelledWord (Some []) params) = Normal t
         /\ existsb isAddToDictionaryItem t = false.
Proof.
  intros self params.
  assert (G1 : spellingGate self (withMisspelledWord (Some []) params)
               = None).
  { unfold spellingGate. simpl. destruct (isEditable params); reflexivity. }
  destruct (launchMenu_gate_closed self _ G1) as [S L].
  split; [|split; [exact G1|split; [exact S|]]].
  - apply launchMenu_ext; try reflexivity.
  - eexists. split; [exact L|].
    apply no_addToDictionary_gate_closed. exact G1.
Qed.

End Dependence.

Lemma spellchecker_without_capability_as_absent_witness :
  launchMenu (js "darwin") noDictInfo
    {| spellchecker :=
         Some (constantSpellchecker false
                 {| primary := Some (english (Some [js "the"]));
                    secondary := None |});
       config := defaultConfig |}
    (misspelledParams noEditFlags)
  = launchMenu (js "darwin") noDictInfo
      {| spellchecker := None; config := defaultConfig |}
      (misspelledParams noEditFlags).
Proof.
  apply (spellchecker_without_capability_as_absent (js "darwin") noDictInfo
           (constantSpellchecker false
              {| primary := Some (english (Some [js "the"]));
                 secondary := None |})
           defaultConfig (misspelledParams noEditFlags)).
  reflexivity.
Defined.

(** ** Link items, paste items and current-page items *)

Section Items.

Variable platform : jsstring.
Variable dictInfo : jsstring -> option DictEntry.

Lemma linkItem_only_in_linkSection self params :
  filter isLinkItem (searchSection self params) = []
  /\ filter isLinkItem (undoRedoSection (editFlags params)) = []
  /\ filter isLinkItem (textEditingSection (editFlags params)) = []
  /\ filter isLinkItem (currentPageSection (config self)) = []
  /\ filter isLinkItem (waveboxSection params) = [].
Proof. repeat split; section_cases. Qed.

Lemma linkSection_linkItems params :
  filter isLinkItem (linkSection platform params)
  = match linkURL params with
    | Some url =>
        if truthy url then
          [openLinkItem url]
          ++ (if JS.eqb platform (js "darwin")
              then [openLinkInBackgroundItem url] else [])
          ++ [copyLinkAddressItem url]
        else []
    | None => []
    end.
Proof. section_cases. Qed.

(** C7, as the code has it.  The link items are in the template exactly
    when [params.linkURL] is a non-empty string (line 86 tests its
    truthiness).  In that case they are "Open Link", then on darwin only
    "Open Link in Background", then "Copy link Address", each acting on
    that URL; when [linkURL] is [null] or the empty string the template
    holds no link item. *)
Theorem link_items_iff_linkURL_truthy :
  forall self params t,
    launchMenu platform dictInfo self params = Normal t ->
    (existsb isLinkItem t = true
     <-> exists url, linkURL params = Some url /\ url <> [])
    /\ (linkURL params = None -> filter isLinkItem t = [])
    /\ (linkURL params = Some [] -> filter isLinkItem t = [])
    /\ (forall url,
          linkURL params = Some url -> url <> [] ->
          filter isLinkItem t
          = [openLinkItem url]
            ++ (if JS.eqb platform (js "darwin")
                then [openLinkInBackgroundItem url] else [])
            ++ [copyLinkAddressItem url]).
Proof.
  intros self params t H.
  assert (F : filter isLinkItem t
              = match linkURL params with
                | Some url =>
                    if truthy url then
                      [openLinkItem url]
                      ++ (if JS.eqb platform (js "darwin")
                          then [openLinkInBackgroundItem url] else [])
                      ++ [copyLinkAddressItem url]
                    else []
                | None => []
                end).
  { rewrite (@launchMenu_filter _ _ isLinkItem _ _ _ H) by reflexivity.
    destruct (linkItem_only_in_linkSection self params)
      as (E1 & E2 & E3 & E4 & E5).
    rewrite E1, E2, E3, E4, E5, linkSection_linkItems.
    rewrite !app_nil_r. reflexivity. }
  assert (X : existsb isLinkItem t = negb (Nat.eqb (List.length
                (filter isLinkItem t)) 0)).
  { clear. induction t as [|n t IH]; [reflexivity|].
    simpl. destruct (isLinkItem n); [reflexivity | exact IH]. }
  repeat split.
  - rewrite X, F. destruct (linkURL params) as [[|c url]|];
      simpl; try discriminate.
    intros _. exists (c :: url). split; [reflexivity | discriminate].
  - intros (url & E & Hne). rewrite X, F, E.
    destruct url; [congruence | reflexivity].
  - intro E. rewrite F, E. reflexivity.
  - intro E. rewrite F, E. reflexivity.
  - intros url E Hne. rewrite F, E.
    destruct url; [congruence | reflexivity].
Qed.

Lemma currentPageItem_only_in_its_section self params :
  existsb isCurrentPageItem (linkSection platform params) = false
  /\ existsb isCurrentPageItem (searchSection self params) = false
  /\ existsb isCurrentPageItem (undoRedoSection (editFlags params)) = false
  /\ existsb isCurrentPageItem (textEditingSection (editFlags params))
     = false.
Proof. repeat split; section_cases. Qed.

(** C10.  With both [copyCurrentPageUrlOption] and
    [openCurrentPageInBrowserOption] set, the current-page section is
    "Copy current URL", "Open page in Browser" and one separator, in that
    order; the template ends with these three nodes followed by
    "Wavebox Settings" and "Inspect", and nothing before them is a
    current-page item. *)
Theorem current_page_section_both_options :
  forall self params t,
    copyCurrentPageUrlOption (config self) = true ->
    openCurrentPageInBrowserOption (config self) = true ->
    launchMenu platform dictInfo self params = Normal t ->
    currentPageSection (config self)
    = [copyCurrentURLItem; openPageInBrowserItem; Separator]
    /\ exists before,
         t = before
             ++ [copyCurrentURLItem; openPageInBrowserItem; Separator]
             ++ waveboxSection params
         /\ existsb isCurrentPageItem before = false.
Proof.
  intros self params t Hc Ho H.
  assert (C : currentPageSection (config self)
              = [copyCurrentURLItem; openPageInBrowserItem; Separator]).
  { unfold currentPageSection. rewrite Hc, Ho. reflexivity. }
  split; [exact C|].
  destruct (launchMenu_sections _ _ _ _ H) as (sp & Hsp & Ht).
  exists (sp ++ linkSection platform params
             ++ searchSection self params
             ++ undoRedoSection (editFlags params)
             ++ textEditingSection (editFlags params)).
  split.
  - rewrite Ht, C, <- !app_assoc. reflexivity.
  - rewrite !existsb_app.
    destruct (currentPageItem_only_in_its_section self params)
      as (E1 & E2 & E3 & E4).
    rewrite E1, E2, E3, E4, !orb_false_r.
    apply spellingOutcome_existsb; try reflexivity.
    eapply spellingSection_outcome; eauto.
Qed.

End Items.

Lemma link_items_iff_linkURL_truthy_witness :
  filter isLinkItem
    [openLinkItem (js "https://wavebox.io");
     openLinkInBackgroundItem (js "https://wavebox.io");
     copyLinkAddressItem (js "https://wavebox.io");
     Separator;
     Item (js "Wavebox Settings") (Some WaveboxSettings) None None;
     Item (js "Inspect") (Some (Inspect 0 0)) None None]
  = [openLinkItem (js "https://wavebox.io")]
    ++ (if JS.eqb (js "darwin") (js "darwin")
        then [openLinkInBackgroundItem (js "https://wavebox.io")] else [])
    ++ [copyLinkAddressItem (js "https://wavebox.io")].
Proof.
  destruct (link_items_iff_linkURL_truthy (js "darwin") noDictInfo
              {| spellchecker := None; config := defaultConfig |}
              {| isEditable := false; misspelledWord := None;
                 selectionText := None;
                 linkURL := Some (js "https://wavebox.io");
                 editFlags := noEditFlags; x := 0%Z; y := 0%Z |}
              eq_refl) as (_ & _ & _ & Items).
  apply Items; [reflexivity | discriminate].
Defined.

(** C7, as stated, fails: with [linkURL] the empty string, which is not
    [null], the template holds no link item. *)
Lemma link_items_absent_for_empty_linkURL :
  ~ (forall platform dictInfo self params t,
       launchMenu platform dictInfo self params = Normal t ->
       (existsb isLinkItem t = true <-> linkURL params <> None)).
Proof.
  intro claim.
  destruct (claim (js "darwin") noDictInfo
              {| spellchecker := None; config := defaultConfig |}
              {| isEditable := false; misspelledWord := None;
                 selectionText := None; linkURL := Some [];
                 editFlags := noEditFlags; x := 0%Z; y := 0%Z |}
              _ eq_refl) as [_ back].
  assert (E : Some (@nil codeunit) <> None) by discriminate.
  apply back in E. discriminate E.
Qed.

Lemma current_page_section_both_options_witness :
  exists before,
    [copyCurrentURLItem; openPageInBrowserItem; Separator;
     Item (js "Wavebox Settings") (Some WaveboxSettings) None None;
     Item (js "Inspect") (Some (Inspect 0 0)) None None]
    = before
      ++ [copyCurrentURLItem; openPageInBrowserItem; Separator]
      ++ waveboxSection (plainParams noEditFlags)
    /\ existsb isCurrentPageItem before = false.
Proof.
  apply (current_page_section_both_options (js "linux") noDictInfo
           (constructor None
              {| arg_copyCurrentPageUrlOption := Some true;
                 arg_openCurrentPageInBrowserOption := Some true |})
           (plainParams noEditFlags)); reflexivity.
Defined.

(** ** Toggling [canPaste] *)

Section Paste.

Variable platform : jsstring.
Variable dictInfo : jsstring -> option DictEntry.

Lemma pasteItem_only_in_textEditing self params :
  existsb isPasteItem (linkSection platform params) = false
  /\ existsb isPasteItem (searchSection self params) = false
  /\ existsb isPasteItem (undoRedoSection (editFlags params)) = false
  /\ existsb isPasteItem (currentPageSection (config self)) = false
  /\ existsb isPasteItem (waveboxSection params) = false.
Proof. repeat split; section_cases. Qed.

(** The text-editing section with and without [canPaste]: the two paste
    items sit between Cut/Copy and Select all, and the closing separator
    is there only for them when no other flag is set. *)
Lemma textEditingSection_canPaste f :
  exists front back,
    textEditingSection (withCanPaste true f)
    = front ++ [pasteItem; pasteAndMatchStyleItem]
      ++ (if canCut f || canCopy f || canSelectAll f
          then [] else [Separator])
      ++ back
    /\ textEditingSection (withCanPaste false f) = front ++ back
    /\ existsb isPasteItem (front ++ back) = false.
Proof.
  unfold textEditingSection, textEditingMenu, withCanPaste. simpl.
  destruct (canCut f), (canCopy f), (canSelectAll f); simpl.
  - exists [Item (js "Cut") None (Some cut) None;
            Item (js "Copy") None (Some copy) None],
           [Item (js "Select all") None (Some selectall) None; Separator].
    repeat split.
  - exists [Item (js "Cut") None (Some cut) None;
            Item (js "Copy") None (Some copy) None], [Separator].
    repeat split.
  - exists [Item (js "Cut") None (Some cut) None],
           [Item (js "Select all") None (Some selectall) None; Separator].
    repeat split.
  - exists [Item (js "Cut") None (Some cut) None], [Separator].
    repeat split.
  - exists [Item (js "Copy") None (Some copy) None],
           [Item (js "Select all") None (Some selectall) None; Separator].
    repeat split.
  - exists [Item (js "Copy") None (Some copy) None], [Separator].
    repeat split.
  - exists [],
           [Item (js "Select all") None (Some selectall) None; Separator].
    repeat split.
  - exists [], []. repeat split.
Qed.

(** C8, as the code has it.  Setting [editFlags.canPaste] from true to
    false, everything else fixed, removes the two adjacent items "Paste"
    and "Paste and match style"; when none of [canCut], [canCopy],
    [canSelectAll] is set it also removes the separator that closed the
    text-editing section, which has become empty.  Nothing else changes,
    and no paste item is left. *)
Theorem canPaste_off_removes_paste_items :
  forall self params t1,
    launchMenu platform dictInfo self
      (withEditFlags (withCanPaste true (editFlags params)) params)
    = Normal t1 ->
    exists t0 before after,
      launchMenu platform dictInfo self
        (withEditFlags (withCanPaste false (editFlags params)) params)
      = Normal t0
      /\ t1 = before ++ [pasteItem; pasteAndMatchStyleItem]
              ++ (if canCut (editFlags params) || canCopy (editFlags params)
                     || canSelectAll (editFlags params)
                  then [] else [Separator])
              ++ after
      /\ t0 = before ++ after
      /\ existsb isPasteItem t0 = false.
Proof.
  intros self params t1 H.
  destruct (launchMenu_sections _ _ _ _ H) as (sp & Hsp & Ht).
  destruct (textEditingSection_canPaste (editFlags params))
    as (front & back & T1 & T0 & NP).
  change (editFlags (withEditFlags (withCanPaste true (editFlags params))
                       params))
    with (withCanPaste true (editFlags params)) in Ht.
  rewrite T1 in Ht.
  set (head := sp ++ linkSection platform params
                  ++ searchSection self params
                  ++ undoRedoSection (editFlags params)).
  set (tail := currentPageSection (config self) ++ waveboxSection params).
  exists (head ++ (front ++ back) ++ tail), (head ++ front), (back ++ tail).
  split; [|split; [|split]].
  - unfold launchMenu.
    change (spellingSection dictInfo self
              (withEditFlags (withCanPaste false (editFlags params)) params))
      with (spellingSection dictInfo self
              (withEditFlags (withCanPaste true (editFlags params)) params)).
    rewrite Hsp. simpl JS.bind.
    change (editFlags (withEditFlags (withCanPaste false (editFlags params))
                         params))
      with (withCanPaste false (editFlags params)).
    rewrite T0. subst head tail. rewrite <- !app_assoc. reflexivity.
  - rewrite Ht. subst head tail. rewrite <- !app_assoc. reflexivity.
  - rewrite <- !app_assoc. reflexivity.
  - subst head tail. rewrite !existsb_app in *.
    destruct (pasteItem_only_in_textEditing self params)
      as (E1 & E2 & E3 & E4 & E5).
    rewrite E1, E2, E3, E4, E5.
    apply orb_false_elim in NP as [NF NB]. rewrite NF, NB, !orb_false_r.
    apply spellingOutcome_existsb; try reflexivity.
    eapply spellingSection_outcome; eauto.
Qed.

End Paste.

Lemma canPaste_off_removes_paste_items_witness :
  exists t0 before after,
    launchMenu (js "linux") noDictInfo
      {| spellchecker := None; config := defaultConfig |}
      (withEditFlags (withCanPaste false noEditFlags) (plainParams noEditFlags))
    = Normal t0
    /\ [pasteItem; pasteAndMatchStyleItem; Separator;
        Item (js "Wavebox Settings") (Some WaveboxSettings) None None;
        Item (js "Inspect") (Some (Inspect 0 0)) None None]
       = before ++ [pasteItem; pasteAndMatchStyleItem]
         ++ (if canCut noEditFlags || canCopy noEditFlags
                || canSelectAll noEditFlags
             then [] else [Separator])
         ++ after
    /\ t0 = before ++ after
    /\ existsb isPasteItem t0 = false.
Proof.
  apply (canPaste_off_removes_paste_items (js "linux") noDictInfo
           {| spellchecker := None; config := defaultConfig |}
           (plainParams noEditFlags)).
  reflexivity.
Defined.

(** C8, as stated, fails: with [canPaste] the only edit flag set, turning it
    off removes three nodes, the two paste items and the separator after
    them, so the shorter template is not the longer one with just the two
    items taken out. *)
Lemma canPaste_off_also_removes_separator :
  ~ (forall platform dictInfo self params t1 t0,
       launchMenu platform dictInfo self
         (withEditFlags (withCanPaste true (editFlags params)) params)
       = Normal t1 ->
       launchMenu platform dictInfo self
         (withEditFlags (withCanPaste false (editFlags params)) params)
       = Normal t0 ->
       exists before after,
         t1 = before ++ [pasteItem; pasteAndMatchStyleItem] ++ after
         /\ t0 = before ++ after).
Proof.
  intro claim.
  destruct (claim (js "linux") noDictInfo
              {| spellchecker := None; config := defaultConfig |}
              (plainParams noEditFlags) _ _ eq_refl eq_refl)
    as (before & after & E1 & E0).
  apply (f_equal (@List.length MenuNode)) in E1, E0.
  rewrite !length_app in E1, E0.
  simpl in E1, E0. lia.
Qed.


(** ** When [launchMenu] builds a menu *)

Section Completion.

Variable platform : jsstring.
Variable dictInfo : jsstring -> option DictEntry.

Lemma spellingSection_completion self params :
  match spellingGate self params with
  | Some (sc, w) =>
      if suggestionsReadable (spellchecker_suggestions sc w)
      then exists sp, spellingSection dictInfo self params = Normal sp
      else spellingSection dictInfo self params = Throw TypeError
  | None => spellingSection dictInfo self params = Normal []
  end.
Proof.
  unfold spellingSection, suggestionsReadable.
  destruct (spellingGate self params) as [[sc w]|]; [|reflexivity].
  destruct (spellchecker_suggestions sc w) as [[p|] [q|]]; simpl;
    try reflexivity.
  - destruct (suggestions p), (suggestions q); simpl;
      try reflexivity; eexists; reflexivity.
  - destruct (suggestions p); simpl; [eexists|]; reflexivity.
Qed.

(** X1.  [launchMenu] builds a template unless the condition of line 67 holds and
    the object returned by [spellchecker.suggestions] makes a property read
    hit [null]: [primary] absent, or the only entry's list [null], or both
    entries present and one list [null].  In exactly those cases it throws,
    and what it throws is a [TypeError]. *)
Theorem launchMenu_completion :
  forall self params,
    match spellingGate self params with
    | Some (sc, w) =>
        if suggestionsReadable (spellchecker_suggestions sc w)
        then exists t, launchMenu platform dictInfo self params = Normal t
        else launchMenu platform dictInfo self params = Throw TypeError
    | None => exists t, launchMenu platform dictInfo self params = Normal t
    end.
Proof.
  intros self params. unfold launchMenu.
  pose proof (spellingSection_completion self params) as S.
  destruct (spellingGate self params) as [[sc w]|].
  - destruct (suggestionsReadable (spellchecker_suggestions sc w)).
    + destruct S as [sp S]. rewrite S. eexists. reflexivity.
    + rewrite S. reflexivity.
  - rewrite S. eexists. reflexivity.
Qed.


(** X4.  Every template ends with "Wavebox Settings" and then "Inspect", which
    carries the position of the click; nothing follows them. *)
Theorem template_ends_with_wavebox_items :
  forall self params t,
    launchMenu platform dictInfo self params = Normal t ->
    exists before,
      t = before
          ++ [Item (js "Wavebox Settings") (Some WaveboxSettings) None None;
              Item (js "Inspect") (Some (Inspect (x params) (y params)))
                   None None]
      /\ (forall href encodeURIComponent,
            invoke href encodeURIComponent WaveboxSettings
            = Normal ipcRenderer_sendToHost_open_settings
            /\ invoke href encodeURIComponent
                      (Inspect (x params) (y params))
               = Normal (webContents_inspectElement (x params) (y params))).
Proof.
  intros self params t H.
  destruct (launchMenu_sections _ _ _ _ H) as (sp & _ & Ht).
  exists (sp ++ linkSection platform params
             ++ searchSection self params
             ++ undoRedoSection (editFlags params)
             ++ textEditingSection (editFlags params)
             ++ currentPageSection (config self)).
  split; [|intros; split; reflexivity].
  rewrite Ht, <- !app_assoc. reflexivity.
Qed.

End Completion.


Lemma template_ends_with_wavebox_items_witness :
  exists before,
    [Item (js "Undo") None (Some undo) (Some true);
     Item (js "Redo") None (Some redo) (Some false);
     Separator;
     Item (js "Wavebox Settings") (Some WaveboxSettings) None None;
     Item (js "Inspect") (Some (Inspect 0 0)) None None]
    = before
      ++ [Item (js "Wavebox Settings") (Some WaveboxSettings) None None;
          Item (js "Inspect") (Some (Inspect 0 0)) None None].
Proof.
  destruct (template_ends_with_wavebox_items (js "linux") noDictInfo
              {| spellchecker := None; config := defaultConfig |}
              (plainParams {| canUndo := true; canRedo := false;
                              canCut := false; canCopy := false;
                              canPaste := false; canSelectAll := false |})
              eq_refl) as (before & E & _).
  exists before. exact E.
Defined.

(** ** Edit items *)

Section Editing.

Variable platform : jsstring.
Variable dictInfo : jsstring -> option DictEntry.

Lemma undoRedoItem_only_in_its_section self params :
  filter isUndoRedoItem (linkSection platform params) = []
  /\ filter isUndoRedoItem (searchSection self params) = []
  /\ filter isUndoRedoItem (textEditingSection (editFlags params)) = []
  /\ filter isUndoRedoItem (currentPageSection (config self)) = []
  /\ filter isUndoRedoItem (waveboxSection params) = [].
Proof. repeat split; section_cases. Qed.

Lemma undoRedoSection_items f :
  filter isUndoRedoItem (undoRedoSection f)
  = if canUndo f || canRedo f then
      [Item (js "Undo") None (Some undo) (Some (canUndo f));
       Item (js "Redo") None (Some redo) (Some (canRedo f))]
    else [].
Proof.
  unfold undoRedoSection. destruct (canUndo f), (canRedo f); reflexivity.
Qed.

(** X5.  Undo and Redo come together or not at all: both are in the template,
    Undo first, when [canUndo] or [canRedo] holds, and neither otherwise.
    A flag that is off disables its item instead of removing it. *)
Theorem undo_redo_together :
  forall self params t,
    launchMenu platform dictInfo self params = Normal t ->
    filter isUndoRedoItem t
    = (if canUndo (editFlags params) || canRedo (editFlags params) then
         [Item (js "Undo") None (Some undo)
               (Some (canUndo (editFlags params)));
          Item (js "Redo") None (Some redo)
               (Some (canRedo (editFlags params)))]
       else [])
    /\ map node_enabled (filter isUndoRedoItem t)
       = (if canUndo (editFlags params) || canRedo (editFlags params) then
            [canUndo (editFlags params); canRedo (editFlags params)]
          else []).
Proof.
  intros self params t H.
  assert (F : filter isUndoRedoItem t
              = filter isUndoRedoItem (undoRedoSection (editFlags params))).
  { rewrite (@launchMenu_filter _ _ isUndoRedoItem _ _ _ H) by reflexivity.
    destruct (undoRedoItem_only_in_its_section self params)
      as (E1 & E2 & E3 & E4 & E5).
    rewrite E1, E2, E3, E4, E5, !app_nil_r. reflexivity. }
  rewrite F, undoRedoSection_items.
  destruct (canUndo (editFlags params) || canRedo (editFlags params));
    split; reflexivity.
Qed.

Lemma textEditingItem_only_in_its_section self params :
  filter isTextEditingItem (linkSection platform params) = []
  /\ filter isTextEditingItem (searchSection self params) = []
  /\ filter isTextEditingItem (undoRedoSection (editFlags params)) = []
  /\ filter isTextEditingItem (currentPageSection (config self)) = []
  /\ filter isTextEditingItem (waveboxSection params) = [].
Proof. repeat split; section_cases. Qed.

Lemma textEditingSection_roles f :
  map node_role (filter isTextEditingItem (textEditingSection f))
  = (if canCut f then [Some cut] else [])
    ++ (if canCopy f then [Some copy] else [])
    ++ (if canPaste f then [Some paste; Some pasteandmatchstyle] else [])
    ++ (if canSelectAll f then [Some selectall] else [])
  /\ map node_click (filter isTextEditingItem (textEditingSection f))
     = map (fun _ => None) (filter isTextEditingItem (textEditingSection f))
  /\ forallb node_enabled (filter isTextEditingItem (textEditingSection f))
     = true.
Proof.
  unfold textEditingSection, textEditingMenu.
  destruct (canCut f), (canCopy f), (canPaste f), (canSelectAll f);
    repeat split.
Qed.

(** X6.  The cut, copy, paste and select-all items of the template are, in this
    order, Cut if [canCut], Copy if [canCopy], Paste and Paste-and-match-style
    if [canPaste], Select all if [canSelectAll]; each has a role and no
    [click], and none is disabled. *)
Theorem text_editing_items_follow_flags :
  forall self params t,
    launchMenu platform dictInfo self params = Normal t ->
    map node_role (filter isTextEditingItem t)
    = (if canCut (editFlags params) then [Some cut] else [])
      ++ (if canCopy (editFlags params) then [Some copy] else [])
      ++ (if canPaste (editFlags params)
          then [Some paste; Some pasteandmatchstyle] else [])
      ++ (if canSelectAll (editFlags params) then [Some selectall] else [])
    /\ map node_click (filter isTextEditingItem t)
       = map (fun _ => None) (filter isTextEditingItem t)
    /\ forallb node_enabled (filter isTextEditingItem t) = true.
Proof.
  intros self params t H.
  assert (F : filter isTextEditingItem t
              = filter isTextEditingItem
                  (textEditingSection (editFlags params))).
  { rewrite (@launchMenu_filter _ _ isTextEditingItem _ _ _ H)
      by reflexivity.
    destruct (textEditingItem_only_in_its_section self params)
      as (E1 & E2 & E3 & E4 & E5).
    rewrite E1, E2, E3, E4, E5, !app_nil_r. reflexivity. }
  rewrite F. apply textEditingSection_roles.
Qed.

End Editing.

Lemma undo_redo_together_witness :
  filter isUndoRedoItem
    [Item (js "Undo") None (Some undo) (Some false);
     Item (js "Redo") None (Some redo) (Some true);
     Separator;
     Item (js "Copy") None (Some copy) None;
     Separator;
     Item (js "Wavebox Settings") (Some WaveboxSettings) None None;
     Item (js "Inspect") (Some (Inspect 0 0)) None None]
  = [Item (js "Undo") None (Some undo) (Some false);
     Item (js "Redo") None (Some redo) (Some true)].
Proof.
  apply (undo_redo_together (js "linux") noDictInfo
           {| spellchecker := None; config := defaultConfig |}
           (plainParams {| canUndo := false; canRedo := true;
                           canCut := false; canCopy := true;
                           canPaste := false; canSelectAll := false |})).
  reflexivity.
Defined.

Lemma text_editing_items_follow_flags_witness :
  map node_role
    (filter isTextEditingItem
       [Item (js "Undo") None (Some undo) (Some false);
        Item (js "Redo") None (Some redo) (Some true);
        Separator;
        Item (js "Copy") None (Some copy) None;
        Item (js "Paste") None (Some paste) None;
        Item (js "Paste and match style") None (Some pasteandmatchstyle) None;
        Separator;
        Item (js "Wavebox Settings") (Some WaveboxSettings) None None;
        Item (js "Inspect") (Some (Inspect 0 0)) None None])
  = [Some copy; Some paste; Some pasteandmatchstyle].
Proof.
  apply (text_editing_items_follow_flags (js "linux") noDictInfo
           {| spellchecker := None; config := defaultConfig |}
           (plainParams {| canUndo := false; canRedo := true;
                           canCut := false; canCopy := true;
                           canPaste := true; canSelectAll := false |})).
  reflexivity.
Defined.

(** ** The search section *)

Lemma displayText_length sel :
  JS.length (displayText sel)
  = if (50 <=? JS.length sel)%nat then 48%nat else JS.length sel.
Proof.
  unfold displayText, substr, JS.length.
  destruct (Nat.leb_spec 50 (List.length sel)) as [L|L]; [|reflexivity].
  simpl skipn. rewrite length_app, length_firstn.
  change (List.length [hellip]) with 1%nat. lia.
Qed.

(** X9.  The text shown in the search label is never longer than 49 code units:
    48 once the selection has 50 or more, the selection's own length below
    that.  It is the selection itself exactly when the selection is shorter
    than 50, and in every case it agrees with the selection on the first 47
    code units. *)
Theorem displayText_bounds :
  forall sel,
    (JS.length (displayText sel) <= 49)%nat
    /\ (JS.length (displayText sel) <= JS.length sel)%nat
    /\ (displayText sel = sel <-> (JS.length sel < 50)%nat)
    /\ firstn 47 (displayText sel) = firstn 47 sel.
Proof.
  intro sel. pose proof (displayText_length sel) as Len.
  destruct (Nat.leb_spec 50 (JS.length sel)) as [L|L].
  - split; [lia|]. split; [lia|]. split; [split|].
    + intro E. rewrite E in Len. lia.
    + intro C. lia.
    + unfold displayText, substr.
      destruct (Nat.leb_spec 50 (JS.length sel)) as [_|C]; [|lia].
      simpl skipn. rewrite firstn_app, firstn_firstn.
      rewrite length_firstn. unfold JS.length in L.
      replace (47 - Nat.min 47 (List.length sel))%nat with 0%nat by lia.
      rewrite firstn_0, app_nil_r. reflexivity.
  - rewrite (displayText_short sel L).
    split; [lia|]. split; [lia|]. split; [split|]; auto.
Qed.

Section Search.

Variable platform : jsstring.
Variable dictInfo : jsstring -> option DictEntry.

Lemma addToDictionaryItem_only_in_searchSection self params :
  filter isAddToDictionaryItem (linkSection platform params) = []
  /\ filter isAddToDictionaryItem (undoRedoSection (editFlags params)) = []
  /\ filter isAddToDictionaryItem (textEditingSection (editFlags params))
     = []
  /\ filter isAddToDictionaryItem (currentPageSection (config self)) = []
  /\ filter isAddToDictionaryItem (waveboxSection params) = [].
Proof. repeat split; section_cases. Qed.

Lemma searchSection_addToDictionaryItem self params :
  filter isAddToDictionaryItem (searchSection self params)
  = match selectionText params with
    | Some sel =>
        if truthy sel then
          match spellingGate self params with
          | Some (_, w) =>
              [Item (addToDictionaryLabel w) (Some (AddToDictionary w))
                    None None]
          | None => []
          end
        else []
    | None => []
    end.
Proof. section_cases. Qed.

(** X7.  The template holds a search item exactly when [params.selectionText] is
    a non-empty string, and then exactly one; an empty selection gives
    none. *)
Theorem search_item_iff_selection_truthy :
  forall self params t,
    launchMenu platform dictInfo self params = Normal t ->
    List.length (filter isSearchItem t)
    = match selectionText params with
      | Some (_ :: _) => 1%nat
      | _ => 0%nat
      end
    /\ (existsb isSearchItem t = true
        <-> exists sel, selectionText params = Some sel /\ sel <> []).
Proof.
  intros self params t H.
  assert (F : filter isSearchItem t
              = match selectionText params with
                | Some sel =>
                    if truthy sel then
                      [Item (searchLabel (displayText sel))
                            (Some (SearchGoogle sel)) None None]
                    else []
                | None => []
                end).
  { rewrite (@launchMenu_filter _ _ isSearchItem _ _ _ H) by reflexivity.
    destruct (searchItem_only_in_searchSection platform self params)
      as (E1 & E2 & E3 & E4 & E5).
    rewrite E1, E2, E3, E4, E5, searchSection_searchItem.
    rewrite !app_nil_r. reflexivity. }
  assert (X : existsb isSearchItem t
              = negb (Nat.eqb (List.length (filter isSearchItem t)) 0)).
  { clear. induction t as [|n t IH]; [reflexivity|].
    simpl. destruct (isSearchItem n); [reflexivity | exact IH]. }
  rewrite X, F. destruct (selectionText params) as [[|c sel]|]; simpl.
  - split; [reflexivity|]. split; [discriminate|].
    intros (sel & E & Hne). congruence.
  - split; [reflexivity|]. split; [|reflexivity].
    intros _. exists (c :: sel). split; [reflexivity | discriminate].
  - split; [reflexivity|]. split; [discriminate|].
    intros (sel & E & _). discriminate.
Qed.

(** X8.  "Add ... to Dictionary" needs a selection as well as a misspelled word:
    the template holds the item, once, for the misspelled word, when the
    condition of line 106 holds and [selectionText] is a non-empty string;
    without a selection it holds none, whatever the spellchecker says.  The
    item's [click] calls [addCustomWord] with that word. *)
Theorem add_to_dictionary_needs_selection :
  forall self params t,
    launchMenu platform dictInfo self params = Normal t ->
    filter isAddToDictionaryItem t
    = match selectionText params, spellingGate self params with
      | Some (_ :: _), Some (_, w) =>
          [Item (js "Add " ++ [ldquo] ++ w ++ [rdquo] ++ js " to Dictionary")
                (Some (AddToDictionary w)) None None]
      | _, _ => []
      end
    /\ (forall sc w,
          spellingGate self params = Some (sc, w) ->
          misspelledWord params = Some w
          /\ forall href encodeURIComponent,
               invoke href encodeURIComponent (AddToDictionary w)
               = Normal (spellchecker_addCustomWord w)).
Proof.
  intros self params t H. split.
  - rewrite (@launchMenu_filter _ _ isAddToDictionaryItem _ _ _ H)
      by reflexivity.
    destruct (addToDictionaryItem_only_in_searchSection self params)
      as (E1 & E2 & E3 & E4 & E5).
    rewrite E1, E2, E3, E4, E5, searchSection_addToDictionaryItem.
    rewrite !app_nil_r.
    destruct (selectionText params) as [[|c sel]|];
      destruct (spellingGate self params) as [[sc w]|]; reflexivity.
  - intros sc w G. split; [|reflexivity].
    unfold spellingGate in G.
    destruct (isEditable params); [|discriminate].
    destruct (misspelledWord params) as [w'|]; [|discriminate].
    destruct (truthy w'); [|discriminate].
    destruct (spellchecker self) as [sc'|]; [|discriminate].
    destruct (hasSpellchecker sc'); [|discriminate].
    inversion G. reflexivity.
Qed.

End Search.

Lemma search_item_iff_selection_truthy_witness :
  List.length
    (filter isSearchItem
       [Item (js "Wavebox Settings") (Some WaveboxSettings) None None;
        Item (js "Inspect") (Some (Inspect 0 0)) None None])
  = 0%nat.
Proof.
  apply (search_item_iff_selection_truthy (js "linux") noDictInfo
           {| spellchecker := None; config := defaultConfig |}
           {| isEditable := false; misspelledWord := None;
              selectionText := Some []; linkURL := None;
              editFlags := noEditFlags; x := 0%Z; y := 0%Z |}).
  reflexivity.
Defined.

Lemma add_to_dictionary_needs_selection_witness :
  filter isAddToDictionaryItem
    [Item (js "the") (Some (ReplaceMisspelling (js "the"))) None None;
     Separator;
     Item (js "Wavebox Settings") (Some WaveboxSettings) None None;
     Item (js "Inspect") (Some (Inspect 0 0)) None None]
  = [].
Proof.
  apply (add_to_dictionary_needs_selection (js "linux") noDictInfo
           {| spellchecker :=
                Some (constantSpellchecker true
                        {| primary := Some (english (Some [js "the"]));
                           secondary := None |});
              config := defaultConfig |}
           (misspelledParams noEditFlags)).
  reflexivity.
Defined.

(** ** Counting separators *)

Section Counting.

Variable platform : jsstring.
Variable dictInfo : jsstring -> option DictEntry.

Lemma spellingSection_separators self params sp :
  spellingSection dictInfo self params = Normal sp ->
  List.length (filter isSeparator sp)
  = Nat.b2n (spellingGateOpen self params).
Proof.
  unfold spellingSection, spellingGateOpen.
  destruct (spellingGate self params) as [[sc w]|].
  - assert (R : forall l,
               List.length (filter isSeparator
                              (_renderSuggestionMenuItems_ l ++ [Separator]))
               = 1%nat).
    { intro l. rewrite filter_app, (filter_none _ _ (render_no_separator l)).
      reflexivity. }
    destruct (spellchecker_suggestions sc w) as [[p|] [q|]]; simpl.
    + destruct (suggestions p), (suggestions q); simpl;
        intro H; inversion H; reflexivity.
    + destruct (suggestions p); simpl; intro H; inversion H. apply R.
    + discriminate.
    + discriminate.
  - intro H. inversion H. reflexivity.
Qed.

Lemma later_sections_separators self params :
  List.length (filter isSeparator (linkSection platform params))
  = match linkURL params with
    | Some url => Nat.b2n (truthy url)
    | None => 0%nat
    end
  /\ List.length (filter isSeparator (searchSection self params))
     = match selectionText params with
       | Some sel => Nat.b2n (truthy sel)
       | None => 0%nat
       end
  /\ List.length (filter isSeparator (undoRedoSection (editFlags params)))
     = Nat.b2n (canUndo (editFlags params) || canRedo (editFlags params))
  /\ List.length (filter isSeparator (textEditingSection (editFlags params)))
     = Nat.b2n (canCut (editFlags params) || canCopy (editFlags params)
                || canPaste (editFlags params)
                || canSelectAll (editFlags params))
  /\ List.length (filter isSeparator (currentPageSection (config self)))
     = Nat.b2n (copyCurrentPageUrlOption (config self)
                || openCurrentPageInBrowserOption (config self))
  /\ List.length (filter isSeparator (waveboxSection params)) = 0%nat.
Proof. repeat split; section_cases. Qed.

(** X10.  The template has one separator for each section that pushed something:
    the spelling section when the condition of line 67 holds, the link and
    search sections when their string is non-empty, the undo/redo, text-editing
    and current-page sections when one of their flags is set.  So there are
    at most six, and none when only the two Wavebox items are shown. *)
Theorem one_separator_per_shown_section :
  forall self params t,
    launchMenu platform dictInfo self params = Normal t ->
    List.length (filter isSeparator t)
    = (Nat.b2n (spellingGateOpen self params)
       + match linkURL params with
         | Some url => Nat.b2n (truthy url)
         | None => 0
         end
       + match selectionText params with
         | Some sel => Nat.b2n (truthy sel)
         | None => 0
         end
       + Nat.b2n (canUndo (editFlags params) || canRedo (editFlags params))
       + Nat.b2n (canCut (editFlags params) || canCopy (editFlags params)
                  || canPaste (editFlags params)
                  || canSelectAll (editFlags params))
       + Nat.b2n (copyCurrentPageUrlOption (config self)
                  || openCurrentPageInBrowserOption (config self)))%nat
    /\ (List.length (filter isSeparator t) <= 6)%nat.
Proof.
  intros self params t H.
  destruct (launchMenu_sections _ _ _ _ H) as (sp & Hsp & Ht).
  pose proof (spellingSection_separators _ _ Hsp) as S0.
  destruct (later_sections_separators self params)
    as (S1 & S2 & S3 & S4 & S5 & S6).
  assert (E : List.length (filter isSeparator t)
              = (List.length (filter isSeparator sp)
                 + List.length (filter isSeparator
                                  (linkSection platform params))
                 + List.length (filter isSeparator
                                  (searchSection self params))
                 + List.length (filter isSeparator
                                  (undoRedoSection (editFlags params)))
                 + List.length (filter isSeparator
                                  (textEditingSection (editFlags params)))
                 + List.length (filter isSeparator
                                  (currentPageSection (config self)))
                 + List.length (filter isSeparator
                                  (waveboxSection params)))%nat).
  { rewrite Ht, !filter_app, !length_app. lia. }
  rewrite E, S0, S1, S2, S3, S4, S5, S6. split; [lia|].
  destruct (spellingGateOpen self params);
    destruct (linkURL params) as [url|]; try destruct (truthy url);
    destruct (selectionText params) as [sel|]; try destruct (truthy sel);
    destruct (canUndo (editFlags params) || canRedo (editFlags params));
    destruct (canCut (editFlags params) || canCopy (editFlags params)
              || canPaste (editFlags params)
              || canSelectAll (editFlags params));
    destruct (copyCurrentPageUrlOption (config self)
              || openCurrentPageInBrowserOption (config self));
    simpl; lia.
Qed.

End Counting.

Lemma one_separator_per_shown_section_witness :
  List.length
    (filter isSeparator
       [Item (js "Undo") None (Some undo) (Some true);
        Item (js "Redo") None (Some redo) (Some false);
        Separator;
        Item (js "Copy") None (Some copy) None;
        Separator;
        Item (js "Wavebox Settings") (Some WaveboxSettings) None None;
        Item (js "Inspect") (Some (Inspect 0 0)) None None])
  = 2%nat.
Proof.
  apply (one_separator_per_shown_section (js "linux") noDictInfo
           {| spellchecker := None; config := defaultConfig |}
           (plainParams {| canUndo := true; canRedo := false;
                           canCut := false; canCopy := true;
                           canPaste := false; canSelectAll := false |})).
  reflexivity.
Defined.

(** ** Configuration and platform *)

Lemma eqb_eq (s t : jsstring) : JS.eqb s t = true <-> s = t.
Proof.
  revert t. induction s as [|c s IH]; intros [|d t]; simpl;
    try (split; [discriminate | congruence]); [tauto|].
  rewrite andb_true_iff, N.eqb_eq, IH. split.
  - intros [-> ->]. reflexivity.
  - intro E. inversion E. auto.
Qed.

Section Configuration.

Variable platform : jsstring.
Variable dictInfo : jsstring -> option DictEntry.

Lemma currentPageSection_items c :
  filter isCurrentPageItem (currentPageSection c)
  = (if copyCurrentPageUrlOption c then [copyCurrentURLItem] else [])
    ++ (if openCurrentPageInBrowserOption c
        then [openPageInBrowserItem] else []).
Proof. section_cases. Qed.

(** X11.  The keys given to the constructor decide the current-page items, one key
    per item: "Copy current URL" is in the template when
    [copyCurrentPageUrlOption] was given as true, "Open page in Browser" when
    [openCurrentPageInBrowserOption] was, the first before the second; a key
    left out counts as false.  Both items act on [window.location.href] as it
    is when the item is clicked. *)
Theorem current_page_items_follow_constructor_config :
  forall sc arg params t,
    launchMenu platform dictInfo (constructor sc arg) params = Normal t ->
    filter isCurrentPageItem t
    = (match arg_copyCurrentPageUrlOption arg with
       | Some true => [copyCurrentURLItem]
       | _ => []
       end)
      ++ (match arg_openCurrentPageInBrowserOption arg with
          | Some true => [openPageInBrowserItem]
          | _ => []
          end)
    /\ (forall href encodeURIComponent,
          invoke href encodeURIComponent CopyCurrentURL
          = Normal (clipboard_writeText href)
          /\ invoke href encodeURIComponent OpenPageInBrowser
             = Normal (shell_openExternal href None)).
Proof.
  intros sc arg params t H. split; [|intros; split; reflexivity].
  rewrite (@launchMenu_filter _ _ isCurrentPageItem _ _ _ H) by reflexivity.
  destruct (currentPageItem_only_in_its_section platform
              (constructor sc arg) params) as (E1 & E2 & E3 & E4).
  rewrite (filter_none _ _ E1), (filter_none _ _ E2), (filter_none _ _ E3),
    (filter_none _ _ E4), currentPageSection_items.
  simpl. rewrite app_nil_r.
  destruct (arg_copyCurrentPageUrlOption arg) as [[|]|],
           (arg_openCurrentPageInBrowserOption arg) as [[|]|]; reflexivity.
Qed.

Lemma backgroundItem_only_in_linkSection self params :
  existsb isOpenLinkInBackgroundItem (searchSection self params) = false
  /\ existsb isOpenLinkInBackgroundItem (undoRedoSection (editFlags params))
     = false
  /\ existsb isOpenLinkInBackgroundItem
       (textEditingSection (editFlags params)) = false
  /\ existsb isOpenLinkInBackgroundItem (currentPageSection (config self))
     = false
  /\ existsb isOpenLinkInBackgroundItem (waveboxSection params) = false.
Proof. repeat split; section_cases. Qed.

(** X12.  "Open Link in Background" is offered on one platform only: the template
    holds the item exactly when [process.platform] is "darwin" and
    [params.linkURL] is a non-empty string. *)
Theorem open_in_background_only_on_darwin :
  forall self params t,
    launchMenu platform dictInfo self params = Normal t ->
    (existsb isOpenLinkInBackgroundItem t = true
     <-> platform = js "darwin"
         /\ exists url, linkURL params = Some url /\ url <> []).
Proof.
  intros self params t H.
  destruct (launchMenu_sections _ _ _ _ H) as (sp & Hsp & Ht).
  assert (S : existsb isOpenLinkInBackgroundItem sp = false).
  { apply spellingOutcome_existsb; try reflexivity.
    eapply spellingSection_outcome; eauto. }
  destruct (backgroundItem_only_in_linkSection self params)
    as (E1 & E2 & E3 & E4 & E5).
  rewrite Ht, !existsb_app, S, E1, E2, E3, E4, E5, !orb_false_r.
  simpl. unfold linkSection.
  destruct (linkURL params) as [[|c url]|]; simpl.
  - split; [discriminate|]. intros (_ & u & E & Hne). congruence.
  - destruct (JS.eqb platform (js "darwin")) eqn:P; simpl.
    + apply eqb_eq in P. split; [|reflexivity].
      intros _. split; [exact P|]. exists (c :: url).
      split; [reflexivity | discriminate].
    + split; [discriminate|]. intros (Pd & _).
      apply eqb_eq in Pd. congruence.
  - split; [discriminate|]. intros (_ & u & E & _). discriminate.
Qed.

End Configuration.

Lemma current_page_items_follow_constructor_config_witness :
  filter isCurrentPageItem
    [openPageInBrowserItem; Separator;
     Item (js "Wavebox Settings") (Some WaveboxSettings) None None;
     Item (js "Inspect") (Some (Inspect 0 0)) None None]
  = [] ++ [openPageInBrowserItem].
Proof.
  apply (current_page_items_follow_constructor_config (js "linux") noDictInfo
           None
           {| arg_copyCurrentPageUrlOption := None;
              arg_openCurrentPageInBrowserOption := Some true |}
           (plainParams noEditFlags)).
  reflexivity.
Defined.

Lemma open_in_background_only_on_darwin_witness :
  existsb isOpenLinkInBackgroundItem
    [openLinkItem (js "https://wavebox.io");
     openLinkInBackgroundItem (js "https://wavebox.io");
     copyLinkAddressItem (js "https://wavebox.io");
     Separator;
     Item (js "Wavebox Settings") (Some WaveboxSettings) None None;
     Item (js "Inspect") (Some (Inspect 0 0)) None None] = true.
Proof.
  apply (open_in_background_only_on_darwin (js "darwin") noDictInfo
           {| spellchecker := None; config := defaultConfig |}
           {| isEditable := false; misspelledWord := None;
              selectionText := None;
              linkURL := Some (js "https://wavebox.io");
              editFlags := noEditFlags; x := 0%Z; y := 0%Z |}).
  - reflexivity.
  - split; [reflexivity|]. eexists. split; [reflexivity | discriminate].
Defined.

(** ** The kinds of node *)

Lemma render_suggestion_nodes (suggs : list jsstring) :
  forallb isSuggestionNode (_renderSuggestionMenuItems_ suggs) = true.
Proof.
  destruct suggs as [|s rest]; [reflexivity|].
  unfold _renderSuggestionMenuItems_.
  generalize (s :: rest) as l.
  induction l as [|a l IH]; simpl; auto.
Qed.

Lemma suggestionNode_known (l : list MenuNode) :
  forallb isSuggestionNode l = true -> forallb knownNode l = true.
Proof.
  induction l as [|n l IH]; simpl; [reflexivity|].
  intro H. apply andb_prop in H as [Hn Hl]. rewrite (IH Hl), andb_true_r.
  destruct n as [lab [[]|] [r|] [[|]|]| |]; simpl in Hn;
    try discriminate; reflexivity.
Qed.

Section Kinds.

Variable platform : jsstring.
Variable dictInfo : jsstring -> option DictEntry.

Lemma spellingSection_known self params sp :
  spellingSection dictInfo self params = Normal sp ->
  forallb knownNode sp = true.
Proof.
  unfold spellingSection.
  destruct (spellingGate self params) as [[sc w]|].
  - destruct (spellchecker_suggestions sc w) as [[p|] [q|]]; simpl.
    + destruct (suggestions p) as [l1|], (suggestions q) as [l2|]; simpl;
        intro H; inversion H. simpl.
      rewrite !render_suggestion_nodes. reflexivity.
    + destruct (suggestions p) as [l|]; simpl; intro H; inversion H.
      rewrite forallb_app, (suggestionNode_known _ (render_suggestion_nodes l)).
      reflexivity.
    + discriminate.
    + discriminate.
  - intro H. inversion H. reflexivity.
Qed.

Lemma later_sections_known self params :
  forallb knownNode (linkSection platform params) = true
  /\ forallb knownNode (searchSection self params) = true
  /\ forallb knownNode (undoRedoSection (editFlags params)) = true
  /\ forallb knownNode (textEditingSection (editFlags params)) = true
  /\ forallb knownNode (currentPageSection (config self)) = true
  /\ forallb knownNode (waveboxSection params) = true.
Proof. repeat split; section_cases. Qed.

(** X13.  Every node of a template is of one of the kinds the host understands
    without guessing: an item with a [click] and neither [role] nor
    [enabled]; an item with a [role] and no [click], where only Undo and Redo
    set [enabled]; the disabled "no suggestions" placeholder; a separator; or
    a submenu, whose nodes are suggestion items or the placeholder and hold no
    separator and no further submenu. *)
Theorem every_node_of_known_kind :
  forall self params t,
    launchMenu platform dictInfo self params = Normal t ->
    forallb knownNode t = true.
Proof.
  intros self params t H.
  destruct (launchMenu_sections _ _ _ _ H) as (sp & Hsp & Ht).
  destruct (later_sections_known self params)
    as (K1 & K2 & K3 & K4 & K5 & K6).
  rewrite Ht, !forallb_app, (spellingSection_known _ _ Hsp),
    K1, K2, K3, K4, K5, K6.
  reflexivity.
Qed.

End Kinds.

Lemma every_node_of_known_kind_witness :
  forallb knownNode
    [Submenu (js "en")
       [Item (js "the") (Some (ReplaceMisspelling (js "the"))) None None];
     Submenu (js "de")
       [Item (js "No Spelling Suggestions") None None (Some false)];
     Separator;
     Item (js "Wavebox Settings") (Some WaveboxSettings) None None;
     Item (js "Inspect") (Some (Inspect 0 0)) None None] = true.
Proof.
  apply (every_node_of_known_kind (js "linux") noDictInfo
           {| spellchecker :=
                Some (constantSpellchecker true
                        {| primary := Some (english (Some [js "the"]));
                           secondary :=
                             Some {| language := js "de";
                                     suggestions := Some [] |} |});
              config := defaultConfig |}
           (misspelledParams noEditFlags)).
  reflexivity.
Defined.

(** ** The [context-menu] listener *)

Lemma eqb_refl (s : jsstring) : JS.eqb s s = true.
Proof. apply eqb_eq. reflexivity. Qed.

Lemma listenersOf_removeAllListeners event removed wc :
  listenersOf event (removeAllListeners removed wc)
  = if JS.eqb event removed then [] else listenersOf event wc.
Proof.
  unfold listenersOf, removeAllListeners.
  induction wc as [|[e l] wc IH]; simpl.
  - destruct (JS.eqb event removed); reflexivity.
  - destruct (JS.eqb e removed) eqn:R; simpl.
    + rewrite IH. destruct (JS.eqb event removed) eqn:Q; [reflexivity|].
      destruct (JS.eqb e event) eqn:P; [|reflexivity].
      apply eqb_eq in P, R. subst. rewrite eqb_refl in Q. discriminate.
    + destruct (JS.eqb e event) eqn:P; simpl; rewrite IH.
      * destruct (JS.eqb event removed) eqn:Q; [|reflexivity].
        apply eqb_eq in P, Q. subst. rewrite eqb_refl in R. discriminate.
      * reflexivity.
Qed.

Lemma listenersOf_on event added l wc :
  listenersOf event (on added l wc)
  = listenersOf event wc ++ (if JS.eqb event added then [l] else []).
Proof.
  unfold listenersOf, on. rewrite filter_app, map_app. simpl.
  destruct (JS.eqb added event) eqn:P, (JS.eqb event added) eqn:Q;
    try reflexivity.
  - apply eqb_eq in P. subst. rewrite eqb_refl in Q. discriminate.
  - apply eqb_eq in Q. subst. rewrite eqb_refl in P. discriminate.
Qed.

Lemma listenersOf_new_ContextMenu sc c wc event :
  listenersOf event (snd (new_ContextMenu sc c wc))
  = if JS.eqb event (js "context-menu")
    then [LaunchMenuOf (constructor sc c)]
    else listenersOf event wc.
Proof.
  unfold new_ContextMenu. simpl snd.
  rewrite listenersOf_on, listenersOf_removeAllListeners.
  destruct (JS.eqb event (js "context-menu"));
    [reflexivity | apply app_nil_r].
Qed.

(** X14.  However many instances are constructed, and whatever listened before,
    afterwards [webContents] has exactly one [context-menu] listener, the
    [launchMenu] of the instance constructed last, so one click opens one
    menu; the listeners of every other event are as they were. *)
Theorem one_context_menu_listener :
  forall earlier sc c wc event,
    listenersOf event (new_ContextMenus (earlier ++ [(sc, c)]) wc)
    = if JS.eqb event (js "context-menu")
      then [LaunchMenuOf (constructor sc c)]
      else listenersOf event wc.
Proof.
  intros earlier sc c. induction earlier as [|[sc' c'] earlier IH];
    intros wc event.
  - apply listenersOf_new_ContextMenu.
  - change (new_ContextMenus (((sc', c') :: earlier) ++ [(sc, c)]) wc)
      with (new_ContextMenus (earlier ++ [(sc, c)])
              (snd (new_ContextMenu sc' c' wc))).
    rewrite IH, listenersOf_new_ContextMenu.
    destruct (JS.eqb event (js "context-menu")); reflexivity.
Qed.

(** ** Submenus *)

Lemma render_no_submenu (suggs : list jsstring) :
  filter isSubmenu (_renderSuggestionMenuItems_ suggs) = [].
Proof.
  destruct suggs as [|s rest]; [reflexivity|].
  unfold _renderSuggestionMenuItems_.
  generalize (s :: rest) as l.
  induction l as [|a l IH]; simpl; auto.
Qed.

Section Submenus.

Variable platform : jsstring.
Variable dictInfo : jsstring -> option DictEntry.

Lemma later_sections_no_submenu self params :
  filter isSubmenu (linkSection platform params) = []
  /\ filter isSubmenu (searchSection self params) = []
  /\ filter isSubmenu (undoRedoSection (editFlags params)) = []
  /\ filter isSubmenu (textEditingSection (editFlags params)) = []
  /\ filter isSubmenu (currentPageSection (config self)) = []
  /\ filter isSubmenu (waveboxSection params) = [].
Proof. repeat split; section_cases. Qed.

(** X3.  Suggestions are put in submenus only to tell two languages apart: the
    template has two submenus, and they are its first two nodes, when the
    condition of line 67 holds and the spellchecker returned both [primary]
    and [secondary]; in every other case it has none, and the suggestions of
    a single language lie directly in the menu. *)
Theorem submenus_only_for_two_languages :
  forall self params t,
    launchMenu platform dictInfo self params = Normal t ->
    filter isSubmenu t
    = match spellingGate self params with
      | Some (sc, w) =>
          match primary (spellchecker_suggestions sc w),
                secondary (spellchecker_suggestions sc w) with
          | Some _, Some _ => firstn 2 t
          | _, _ => []
          end
      | None => []
      end.
Proof.
  intros self params t H.
  destruct (launchMenu_sections _ _ _ _ H) as (sp & Hsp & Ht).
  destruct (later_sections_no_submenu self params)
    as (E1 & E2 & E3 & E4 & E5 & E6).
  assert (F : filter isSubmenu t = filter isSubmenu sp).
  { rewrite Ht, !filter_app, E1, E2, E3, E4, E5, E6, !app_nil_r.
    reflexivity. }
  rewrite F. clear F E1 E2 E3 E4 E5 E6 H.
  unfold spellingSection in Hsp.
  destruct (spellingGate self params) as [[sc w]|].
  - destruct (spellchecker_suggestions sc w) as [[p|] [q|]]; simpl in *.
    + destruct (suggestions p), (suggestions q); simpl in Hsp;
        inversion Hsp; subst. reflexivity.
    + destruct (suggestions p) as [l|]; simpl in Hsp; inversion Hsp.
      rewrite filter_app, render_no_submenu. reflexivity.
    + discriminate.
    + discriminate.
  - inversion Hsp. reflexivity.
Qed.

End Submenus.

Lemma submenus_only_for_two_languages_witness :
  filter isSubmenu
    [Item (js "the") (Some (ReplaceMisspelling (js "the"))) None None;
     Separator;
     Item (js "Wavebox Settings") (Some WaveboxSettings) None None;
     Item (js "Inspect") (Some (Inspect 0 0)) None None]
  = [].
Proof.
  apply (submenus_only_for_two_languages (js "linux") noDictInfo
           {| spellchecker :=
                Some (constantSpellchecker true
                        {| primary := Some (english (Some [js "the"]));
                           secondary := None |});
              config := defaultConfig |}
           (misspelledParams noEditFlags)).
  reflexivity.
Defined.
